(** * The Lutron Caseta LEAP platform: discovery and device reconciliation

    A shallow embedding of [src/platform.ts] (class [LutronCasetaLeap]).
    The platform object is a record of its fields; the host platform, the
    bridges and the per-type accessory handlers are an interface [Host]
    over a world [W]; every method is a computation in a state-and-exception
    monad over the platform state.  Asynchronous chains are run to
    completion in program order: every awaited promise is taken as settled
    (resolved or rejected) by the host. *)

From Stdlib Require Import String Ascii List Bool Arith NArith Lia.
From Stdlib Require Import DecimalString.
From stdpp Require Import base option strings gmap fin_maps.
Import ListNotations.

Open Scope string_scope.

(** ** Strings as the code uses them *)

(** [String.prototype.toLowerCase], on the ASCII letters. *)
Definition lower_ascii (c : ascii) : ascii :=
  let n := nat_of_ascii c in
  if (65 <=? n)%nat && (n <=? 90)%nat then ascii_of_nat (n + 32) else c.

Fixpoint toLowerCase (s : string) : string :=
  match s with
  | EmptyString => EmptyString
  | String c r => String (lower_ascii c) (toLowerCase r)
  end.

(** [Array.prototype.join(sep)] on an array of strings. *)
Definition join (sep : string) (l : list string) : string := String.concat sep l.

(** [Number.prototype.toString()] of a non-negative integer. *)
Definition toString (n : N) : string := NilZero.string_of_uint (N.to_uint n).

(** ** Data model *)

(** [GlobalOptions], see config.schema.json. *)
Inductive ClickSpeed := quick | default | relaxed.

Record GlobalOptions := {
  filterPico : bool;
  filterBlinds : bool;
  clickSpeedLong : ClickSpeed;
  clickSpeedDouble : ClickSpeed;
}.

(** The [options] object of the configuration: any field may be missing. *)
Record ConfigOptions := {
  cfg_filterPico : option bool;
  cfg_filterBlinds : option bool;
  cfg_clickSpeedLong : option ClickSpeed;
  cfg_clickSpeedDouble : option ClickSpeed;
}.

Record BridgeAuthEntry := {
  bridgeid : string;
  ca : string;
  key : string;
  cert : string;
}.

(** [PlatformConfig]: the two members the platform reads. *)
Record PlatformConfig := {
  config_options : option ConfigOptions;
  config_secrets : list BridgeAuthEntry;
}.

(** [DeviceDefinition] of lutron-leap: the members the platform reads. *)
Record DeviceDefinition := {
  DeviceType : string;
  SerialNumber : N;
  FullyQualifiedName : list string;
}.

(** The [context] of an accessory: [context.device] and [context.bridgeID]. *)
Record Context := {
  device : DeviceDefinition;
  bridgeID : string;
}.

(** [PlatformAccessory].  [services] stands for everything a handler
    constructor wires onto the accessory object. *)
Record PlatformAccessory := {
  displayName : string;
  UUID : string;
  context : Context;
  services : list string;
}.

Record LeapClient := {
  client_host : string;
  client_port : N;
  client_ca : string;
  client_key : string;
  client_cert : string;
}.

Record SmartBridge := {
  sb_bridgeID : string;
  sb_client : LeapClient;
}.

Record BridgeNetInfo := {
  net_bridgeid : string;
  net_ipAddr : string;
}.

(** [Response] of lutron-leap.  [Body] is optional (the code reads it as
    [response.Body!]); the device-heard body is [OneDeviceStatus]. *)
Record DeviceHeard := {
  heard_DeviceType : string;
  heard_SerialNumber : string;
}.

Record Response := {
  CommuniqueType : string;
  Header_Url : string;
  Body : option DeviceHeard;
}.

(** A thrown value, by its rendering [String(e)]. *)
Definition Exn := string.

(** How a call ends: it returns (an awaited promise resolves), or it throws
    (the promise rejects). *)
Inductive Completion (A : Type) :=
| Returned (a : A)
| Thrown (e : Exn).
Arguments Returned {A} a.
Arguments Thrown {A} e.

(** Log lines, by level. *)
Inductive Level := info | warn | error | debug.

Record LogEntry := {
  level : Level;
  message : string;
}.

(** [BridgeFinder]: the listeners attached to it and whether it searches. *)
Record BridgeFinder := {
  discoveredListeners : nat;
  failedListeners : nat;
  searching : bool;
}.

(** Calls the platform makes on its collaborators, in program order. *)
Inductive Call :=
| new_platformAccessory (name uuid : string)
| new_SerenaTiltOnlyWoodBlinds (a : PlatformAccessory) (bridge : string)
| new_PicoRemote (a : PlatformAccessory) (bridge : string) (o : GlobalOptions)
| new_OccupancySensor (a : PlatformAccessory) (bridge : string)
| sensor_initialize (a : PlatformAccessory)
| registerPlatformAccessories (plugin platform : string) (l : list PlatformAccessory)
| bridge_getDeviceInfo (b : SmartBridge)
| bridge_on_unsolicited (b : SmartBridge)
| bridgeMgr_getBridge (id : string)
| bridgeMgr_addBridge (b : SmartBridge)
| api_on_didFinishLaunching
| process_on (event : string)
| finder_beginSearching.

(** A pending [setTimeout(() => this.processAllDevices(bridge), ms)]. *)
Record Timer := {
  timer_ms : N;
  timer_bridge : SmartBridge;
}.

(** ** The platform and its collaborators *)

Section Platform.

(** The state of everything outside the platform object. *)
Context {W : Type}.

(** What the platform takes from outside this file.
    - [PLUGIN_NAME] and [PLATFORM_NAME] are the constants of ./settings and
      [LEAP_PORT] the one of lutron-leap;
    - [inspect] is [util.inspect] on an accessory, [stringify] is
      [JSON.stringify] on a credential entry, [inspect_response] is how the
      logger prints a response;
    - [uuid_generate] is [api.hap.uuid.generate], a function of its seed;
    - the three handler constructors mutate the accessory they are given:
      each yields the services the accessory carries afterwards (like the
      accessory factory [api.platformAccessory], they return);
    - [initialize] is [OccupancySensor.initialize], whose promise resolves
      with the sensor's services or rejects;
    - [register] is [api.registerPlatformAccessories], which may throw;
    - [getDeviceInfo] is [SmartBridge.getDeviceInfo], awaited;
    - [awaitBridge] settles [BridgeManager.getBridge] for an identity the
      manager does not hold yet. *)
Record Host := {
  PLUGIN_NAME : string;
  PLATFORM_NAME : string;
  LEAP_PORT : N;
  inspect : PlatformAccessory -> string;
  stringify : BridgeAuthEntry -> string;
  inspect_response : Response -> string;
  uuid_generate : string -> string;
  SerenaTiltOnlyWoodBlinds : PlatformAccessory -> list string;
  PicoRemote : PlatformAccessory -> GlobalOptions -> list string;
  OccupancySensor : PlatformAccessory -> list string;
  initialize : W -> PlatformAccessory -> W * Completion (list string);
  register : W -> list PlatformAccessory -> W * Completion unit;
  getDeviceInfo : W -> SmartBridge -> W * Completion (list DeviceDefinition);
  awaitBridge : W -> string -> W * Completion SmartBridge;
}.

Variable host : Host.

(** The platform object ([accessories], [finder], [options], [secrets],
    [bridgeMgr]) together with what its calls leave behind: the log, the
    collaborator calls, the pending timers, the [unsolicited] events it
    emitted to its own subscribers, the callbacks it attached to the host's
    finished-launching signal, and the world. *)
Record State := {
  accessories : gmap string PlatformAccessory;
  finder : option BridgeFinder;
  options : GlobalOptions;
  secrets : gmap string BridgeAuthEntry;
  bridgeMgr : gmap string SmartBridge;
  maxListeners : option nat;
  launchCallbacks : nat;
  timers : list Timer;
  emitted : list Response;
  log : list LogEntry;
  calls : list Call;
  world : W;
}.

Definition set_accessories (f : gmap string PlatformAccessory -> gmap string PlatformAccessory)
    (s : State) : State :=
  {| accessories := f (accessories s); finder := finder s; options := options s;
     secrets := secrets s; bridgeMgr := bridgeMgr s; maxListeners := maxListeners s;
     launchCallbacks := launchCallbacks s; timers := timers s; emitted := emitted s;
     log := log s; calls := calls s; world := world s |}.

Definition set_finder (f : option BridgeFinder) (s : State) : State :=
  {| accessories := accessories s; finder := f; options := options s;
     secrets := secrets s; bridgeMgr := bridgeMgr s; maxListeners := maxListeners s;
     launchCallbacks := launchCallbacks s; timers := timers s; emitted := emitted s;
     log := log s; calls := calls s; world := world s |}.

Definition set_bridgeMgr (f : gmap string SmartBridge -> gmap string SmartBridge)
    (s : State) : State :=
  {| accessories := accessories s; finder := finder s; options := options s;
     secrets := secrets s; bridgeMgr := f (bridgeMgr s); maxListeners := maxListeners s;
     launchCallbacks := launchCallbacks s; timers := timers s; emitted := emitted s;
     log := log s; calls := calls s; world := world s |}.

Definition set_maxListeners (n : nat) (s : State) : State :=
  {| accessories := accessories s; finder := finder s; options := options s;
     secrets := secrets s; bridgeMgr := bridgeMgr s; maxListeners := Some n;
     launchCallbacks := launchCallbacks s; timers := timers s; emitted := emitted s;
     log := log s; calls := calls s; world := world s |}.

Definition set_launchCallbacks (f : nat -> nat) (s : State) : State :=
  {| accessories := accessories s; finder := finder s; options := options s;
     secrets := secrets s; bridgeMgr := bridgeMgr s; maxListeners := maxListeners s;
     launchCallbacks := f (launchCallbacks s); timers := timers s; emitted := emitted s;
     log := log s; calls := calls s; world := world s |}.

Definition set_timers (f : list Timer -> list Timer) (s : State) : State :=
  {| accessories := accessories s; finder := finder s; options := options s;
     secrets := secrets s; bridgeMgr := bridgeMgr s; maxListeners := maxListeners s;
     launchCallbacks := launchCallbacks s; timers := f (timers s); emitted := emitted s;
     log := log s; calls := calls s; world := world s |}.

Definition set_emitted (f : list Response -> list Response) (s : State) : State :=
  {| accessories := accessories s; finder := finder s; options := options s;
     secrets := secrets s; bridgeMgr := bridgeMgr s; maxListeners := maxListeners s;
     launchCallbacks := launchCallbacks s; timers := timers s; emitted := f (emitted s);
     log := log s; calls := calls s; world := world s |}.

Definition set_log (f : list LogEntry -> list LogEntry) (s : State) : State :=
  {| accessories := accessories s; finder := finder s; options := options s;
     secrets := secrets s; bridgeMgr := bridgeMgr s; maxListeners := maxListeners s;
     launchCallbacks := launchCallbacks s; timers := timers s; emitted := emitted s;
     log := f (log s); calls := calls s; world := world s |}.

Definition set_calls (f : list Call -> list Call) (s : State) : State :=
  {| accessories := accessories s; finder := finder s; options := options s;
     secrets := secrets s; bridgeMgr := bridgeMgr s; maxListeners := maxListeners s;
     launchCallbacks := launchCallbacks s; timers := timers s; emitted := emitted s;
     log := log s; calls := f (calls s); world := world s |}.

Definition set_world (w : W) (s : State) : State :=
  {| accessories := accessories s; finder := finder s; options := options s;
     secrets := secrets s; bridgeMgr := bridgeMgr s; maxListeners := maxListeners s;
     launchCallbacks := launchCallbacks s; timers := timers s; emitted := emitted s;
     log := log s; calls := calls s; world := w |}.

(** *** The monad of platform methods *)

Definition M (A : Type) : Type := State -> Completion A * State.

Definition ret {A} (a : A) : M A := fun s => (Returned a, s).

Definition bind {A B} (m : M A) (k : A -> M B) : M B :=
  fun s =>
    match m s with
    | (Returned a, s') => k a s'
    | (Thrown e, s') => (Thrown e, s')
    end.

Definition throw {A} (e : Exn) : M A := fun s => (Thrown e, s).

(** [try { m } catch (e) { ... }]: the completion of [m], as a value. *)
Definition attempt {A} (m : M A) : M (Completion A) :=
  fun s => let (r, s') := m s in (Returned r, s').

Definition gets {A} (f : State -> A) : M A := fun s => (Returned (f s), s).

Definition modify (f : State -> State) : M unit := fun s => (Returned tt, f s).

(** A call into the world that may throw. *)
Definition ask {A} (c : Call) (f : W -> W * Completion A) : M A :=
  fun s =>
    let (w, r) := f (world s) in
    (r, set_world w (set_calls (fun l => (l ++ [c])%list) s)).

(** A call on a collaborator that returns. *)
Definition tell (c : Call) : M unit := modify (set_calls (fun l => (l ++ [c])%list)).

Definition log_at (lv : Level) (msg : string) : M unit :=
  modify (set_log (fun l => (l ++ [{| level := lv; message := msg |}])%list)).

Notation "x <- m ;; k" := (bind m (fun x => k))
  (at level 100, m at next level, right associativity).
Notation "m ;; k" := (bind m (fun _ => k))
  (at level 100, right associativity).

(** *** Configuration *)

(** One key of [Object.assign(defaults, config.options)]: the default stays
    unless the source object is there and has the key. *)
Definition assigned {O A} (dflt : A) (o : option O) (field : O -> option A) : A :=
  match o with
  | Some src => match field src with Some v => v | None => dflt end
  | None => dflt
  end.

Definition optionsFromConfig (config : PlatformConfig) : GlobalOptions :=
  let o := config_options config in
  {| filterPico := assigned false o cfg_filterPico;
     filterBlinds := assigned false o cfg_filterBlinds;
     clickSpeedDouble := assigned default o cfg_clickSpeedDouble;
     clickSpeedLong := assigned default o cfg_clickSpeedLong |}.

Definition secretsFromConfig (config : PlatformConfig) : gmap string BridgeAuthEntry :=
  fold_left
    (fun out entry =>
       <[toLowerCase (bridgeid entry) :=
           {| ca := ca entry; key := key entry; cert := cert entry;
              bridgeid := bridgeid entry |}]> out)
    (config_secrets config) ∅.

(** *** BridgeManager *)

(** Modelled from the spec: ./BridgeManager is not part of the sources.  The
    registry tracks live connections keyed by bridge identity. *)
Definition hasBridge (id : string) : M bool :=
  mgr <- gets bridgeMgr ;; ret (bool_decide (is_Some (mgr !! id))).

(** Modelled from the spec: ./BridgeManager, registering a connection under
    its identity. *)
Definition addBridge (b : SmartBridge) : M unit :=
  tell (bridgeMgr_addBridge b) ;;
  modify (set_bridgeMgr (insert (sb_bridgeID b) b)).

(** Modelled from the spec: ./BridgeManager, lookup-or-wait by identity.  A
    connection the registry holds is the answer; otherwise the promise waits
    and is settled by the host (the connection shows up, or the lookup
    fails). *)
Definition getBridge (id : string) : M SmartBridge :=
  mgr <- gets bridgeMgr ;;
  match mgr !! id with
  | Some b => tell (bridgeMgr_getBridge id) ;; ret b
  | None => ask (bridgeMgr_getBridge id) (fun w => awaitBridge host w id)
  end.

(** *** Device types, as the case labels group them *)

Definition blind_types : list string := ["SerenaTiltOnlyWoodBlind"].

Definition pico_types : list string :=
  ["Pico2Button"; "Pico2ButtonRaiseLower"; "Pico3Button"; "Pico3ButtonRaiseLower";
   "Pico4Button2Group"; "Pico4ButtonScene"; "Pico4ButtonZone"].

Definition sensor_types : list string := ["RPSOccupancySensor"].

Definition native_types : list string :=
  ["SmartBridge"; "WallSwitch"; "WallDimmer"; "CasetaFanSpeedController"].

Definition pending_types : list string := ["Pico4Button"; "FourGroupRemote"].

(** [case l1: case l2: ...] matches the scrutinee by [===]. *)
Definition case_of (labels : list string) (t : string) : bool :=
  existsb (String.eqb t) labels.

(** How a [switch] arm ends: [break] with the accessory as the handler left
    it, or [return]. *)
Inductive Flow :=
| Break (a : PlatformAccessory)
| Return.

Definition with_services (a : PlatformAccessory) (sv : list string) : PlatformAccessory :=
  {| displayName := displayName a; UUID := UUID a; context := context a; services := sv |}.

(** *** processDevice *)

Definition processDevice_switch (bridge : SmartBridge) (d : DeviceDefinition)
    (fullName : string) (accessory : PlatformAccessory) : M Flow :=
  let t := DeviceType d in
  if case_of blind_types t then
    log_at info ("Found a new Serena blind: " +:+ fullName) ;;
    opts <- gets options ;;
    if filterBlinds opts then
      log_at warn ("Serena wood blinds support disabled. Skipping " +:+ fullName) ;;
      ret Return
    else
      tell (bridgeMgr_getBridge (sb_bridgeID bridge)) ;;
      tell (new_SerenaTiltOnlyWoodBlinds accessory (sb_bridgeID bridge)) ;;
      ret (Break (with_services accessory (SerenaTiltOnlyWoodBlinds host accessory)))
  else if case_of pico_types t then
    log_at info ("Found a new " +:+ t +:+ " remote " +:+ fullName) ;;
    opts <- gets options ;;
    tell (bridgeMgr_getBridge (sb_bridgeID bridge)) ;;
    tell (new_PicoRemote accessory (sb_bridgeID bridge) opts) ;;
    ret (Break (with_services accessory (PicoRemote host accessory opts)))
  else if case_of sensor_types t then
    log_at info ("Found a new " +:+ t +:+ " occupancy sensor " +:+ fullName) ;;
    tell (bridgeMgr_getBridge (sb_bridgeID bridge)) ;;
    tell (new_OccupancySensor accessory (sb_bridgeID bridge)) ;;
    let sensor := with_services accessory (OccupancySensor host accessory) in
    sv <- ask (sensor_initialize sensor) (fun w => initialize host w sensor) ;;
    ret (Break (with_services sensor sv))
  else if case_of native_types t then
    log_at info ("Device type " +:+ t +:+ " supported natively, skipping setup") ;;
    ret Return
  else if case_of pending_types t then
    log_at info ("Device type " +:+ t
                 +:+ " not yet supported, skipping setup. Please file a request ticket.") ;;
    ret Return
  else
    log_at info ("Device type " +:+ t +:+
                 " not recognized, skipping setup. Please file a ticket to include information about it") ;;
    ret Return.

(** [new this.api.platformAccessory(fullName, uuid)], the two assignments to
    its context, and the [switch]. *)
Definition processDevice_setup (bridge : SmartBridge) (d : DeviceDefinition)
    (fullName uuid : string) : M Flow :=
  tell (new_platformAccessory fullName uuid) ;;
  let accessory :=
    {| displayName := fullName; UUID := uuid;
       context := {| device := d; bridgeID := sb_bridgeID bridge |};
       services := [] |} in
  processDevice_switch bridge d fullName accessory.

(** The registration [try] and the insertion that follows it. *)
Definition processDevice_register (d : DeviceDefinition) (fullName uuid : string)
    (accessory : PlatformAccessory) : M unit :=
  r <- attempt (ask (registerPlatformAccessories (PLUGIN_NAME host) (PLATFORM_NAME host)
                       [accessory])
                    (fun w => register host w [accessory])) ;;
  match r with
  | Thrown e =>
      log_at error ("Could not register " +:+ DeviceType d +:+ " named " +:+ fullName
                    +:+ " with uuid " +:+ uuid +:+ ": " +:+ e)
  | Returned _ => modify (set_accessories (insert uuid accessory))
  end.

Definition processDevice (bridge : SmartBridge) (d : DeviceDefinition) : M unit :=
  let fullName := join " " (FullyQualifiedName d) in
  let uuid := uuid_generate host (toString (SerialNumber d)) in
  accs <- gets accessories ;;
  match accs !! uuid with
  | Some _ =>
      log_at info ("Accessory " +:+ DeviceType d +:+ " " +:+ uuid +:+ " " +:+ fullName
                   +:+ " already set up. Skipping.")
  | None =>
      flow <- processDevice_setup bridge d fullName uuid ;;
      match flow with
      | Return => ret tt
      | Break accessory => processDevice_register d fullName uuid accessory
      end
  end.

(** The name, the identity and the fresh handle [processDevice] computes
    for a device. *)
Definition fullName_of (d : DeviceDefinition) : string :=
  join " " (FullyQualifiedName d).

Definition uuid_of (d : DeviceDefinition) : string :=
  uuid_generate host (toString (SerialNumber d)).

Definition handle_of (bridge : SmartBridge) (d : DeviceDefinition) : PlatformAccessory :=
  {| displayName := fullName_of d; UUID := uuid_of d;
     context := {| device := d; bridgeID := sb_bridgeID bridge |};
     services := [] |}.

(** The device types on which the [switch] of [processDevice] returns
    instead of breaking, under the given options. *)
Definition skips (o : GlobalOptions) (t : string) : bool :=
  if case_of blind_types t then filterBlinds o
  else negb (case_of pico_types t || case_of sensor_types t).

(** Nothing is left to do for a device: its identity is in the index, or the
    [switch] returns on its type. *)
Definition settled (d : DeviceDefinition) (s : State) : Prop :=
  is_Some (accessories s !! uuid_of d) \/ skips (options s) (DeviceType d) = true.

(** *** handleUnsolicitedMessage *)

(** [this.emit('unsolicited', response)]. *)
Definition emit_unsolicited (response : Response) : M unit :=
  modify (set_emitted (fun l => (l ++ [response])%list)).

(** [setTimeout(() => this.processAllDevices(bridge), ms)]. *)
Definition setTimeout (bridge : SmartBridge) (ms : N) : M unit :=
  modify (set_timers (fun l => (l ++ [{| timer_ms := ms; timer_bridge := bridge |}])%list)).

Definition handleUnsolicitedMessage (bridgeID : string) (response : Response) : M unit :=
  log_at debug ("bridge " +:+ bridgeID +:+ " got unsolicited message "
                +:+ inspect_response host response) ;;
  if (CommuniqueType response =? "UpdateResponse")%string
     && (Header_Url response =? "/device/status/deviceheard")%string then
    match Body response with
    | None => throw "TypeError: Cannot read properties of undefined (reading 'DeviceStatus')"
    | Some heardDevice =>
        log_at info ("New " +:+ heard_DeviceType heardDevice +:+ " s/n "
                     +:+ heard_SerialNumber heardDevice +:+ ". Triggering refresh in 30s.") ;;
        r <- attempt (getBridge bridgeID) ;;
        match r with
        | Returned bridge => setTimeout bridge 30000
        | Thrown e =>
            log_at error ("Failed to trigger device refresh due to newly-heard device: " +:+ e)
        end
    end
  else
    emit_unsolicited response.

(** *** processAllDevices *)

(** The body of [for (const d of devices)]. *)
Definition processAllDevices_one (bridge : SmartBridge) (d : DeviceDefinition) : M unit :=
  r <- attempt (processDevice bridge d) ;;
  match r with
  | Returned _ => ret tt
  | Thrown e => log_at error ("Failed to process device " +:+ join " " (FullyQualifiedName d))
  end.

Fixpoint processAllDevices_loop (bridge : SmartBridge) (devices : list DeviceDefinition)
    : M unit :=
  match devices with
  | [] => ret tt
  | d :: rest =>
      processAllDevices_one bridge d ;;
      processAllDevices_loop bridge rest
  end.

(** The request goes out and the listener is attached at once; the [then]
    and [catch] callbacks run when the inventory promise has settled. *)
Definition processAllDevices (bridge : SmartBridge) : M unit :=
  inventory <- attempt (ask (bridge_getDeviceInfo bridge)
                            (fun w => getDeviceInfo host w bridge)) ;;
  tell (bridge_on_unsolicited bridge) ;;
  r <- attempt (match inventory with
                | Returned devices => processAllDevices_loop bridge devices
                | Thrown e => throw e
                end) ;;
  match r with
  | Returned _ => ret tt
  | Thrown e =>
      log_at error ("Failed to process devices on new bridge " +:+ sb_bridgeID bridge
                    +:+ ": " +:+ e)
  end.

(** *** handleBridgeDiscovery *)

Definition handleBridgeDiscovery (bridgeInfo : BridgeNetInfo) : M unit :=
  known <- hasBridge (toLowerCase (net_bridgeid bridgeInfo)) ;;
  if (known : bool) then
    log_at info ("Bridge " +:+ net_bridgeid bridgeInfo +:+ " already known, closing.")
  else
    sec <- gets secrets ;;
    match sec !! toLowerCase (net_bridgeid bridgeInfo) with
    | Some these =>
        log_at debug ("bridge " +:+ net_bridgeid bridgeInfo +:+ " has secrets "
                      +:+ stringify host these) ;;
        let client :=
          {| client_host := net_ipAddr bridgeInfo; client_port := LEAP_PORT host;
             client_ca := ca these; client_key := key these; client_cert := cert these |} in
        let bridge :=
          {| sb_bridgeID := toLowerCase (net_bridgeid bridgeInfo); sb_client := client |} in
        addBridge bridge ;;
        processAllDevices bridge
    | None => throw ("Error: no credentials for bridge ID " +:+ net_bridgeid bridgeInfo)
    end.

(** *** configureAccessory *)

Definition configureAccessory_switch (accessory : PlatformAccessory) (fullName : string)
    : M Flow :=
  let t := DeviceType (device (context accessory)) in
  let bridge := bridgeID (context accessory) in
  if case_of blind_types t then
    opts <- gets options ;;
    if filterBlinds opts then
      log_at warn ("Serena wood blinds support disabled. Skipping " +:+ fullName) ;;
      ret Return
    else
      log_at info ("Restoring blinds " +:+ fullName) ;;
      tell (new_SerenaTiltOnlyWoodBlinds accessory bridge) ;;
      ret (Break (with_services accessory (SerenaTiltOnlyWoodBlinds host accessory)))
  else if case_of pico_types t then
    log_at info ("Restoring Pico remote " +:+ fullName +:+ " on bridge " +:+ bridge) ;;
    opts <- gets options ;;
    tell (new_PicoRemote accessory bridge opts) ;;
    ret (Break (with_services accessory (PicoRemote host accessory opts)))
  else if case_of sensor_types t then
    log_at info ("Restoring occupancy sensor " +:+ fullName +:+ " on bridge " +:+ bridge) ;;
    tell (new_OccupancySensor accessory bridge) ;;
    let sensor := with_services accessory (OccupancySensor host accessory) in
    (* initialize() is not awaited: its callback only logs, and a rejection
       reaches nobody *)
    r <- attempt (ask (sensor_initialize sensor) (fun w => initialize host w sensor)) ;;
    match r with
    | Returned sv =>
        log_at debug "Finished setting up occupancy sensor" ;;
        ret (Break (with_services sensor sv))
    | Thrown _ => ret (Break sensor)
    end
  else
    log_at warn ("Accessory " +:+ inspect host accessory
                 +:+ " was cached but is not supported. Did you downgrade?") ;;
    ret (Break accessory).

Definition configureAccessory (accessory : PlatformAccessory) : M unit :=
  tell (bridgeMgr_getBridge (bridgeID (context accessory))) ;;
  let fullName := join " " (FullyQualifiedName (device (context accessory))) in
  log_at info ("Restoring cached " +:+ DeviceType (device (context accessory)) +:+ " "
               +:+ UUID accessory +:+ " on bridge " +:+ bridgeID (context accessory)) ;;
  flow <- configureAccessory_switch accessory fullName ;;
  match flow with
  | Return => ret tt
  | Break accessory => modify (set_accessories (insert (UUID accessory) accessory))
  end.

(** *** The constructor *)

(** The platform object as its field initialisers and the two assignments
    from the configuration leave it. *)
Definition fresh (config : PlatformConfig) (w : W) : State :=
  {| accessories := ∅; finder := None;
     options := optionsFromConfig config; secrets := secretsFromConfig config;
     bridgeMgr := ∅; maxListeners := None; launchCallbacks := 0;
     timers := []; emitted := []; log := []; calls := []; world := w |}.

Definition constructor_body : M unit :=
  log_at info "LutronCasetaLeap starting up..." ;;
  tell (process_on "warning") ;;
  sec <- gets secrets ;;
  if (size sec =? 0)%nat then
    log_at warn "No bridge auth configured. Retiring."
  else
    modify (set_maxListeners (75 * size sec)) ;;
    tell api_on_didFinishLaunching ;;
    modify (set_launchCallbacks S) ;;
    tell (process_on "SIGUSR2") ;;
    log_at info "LutronCasetaLeap plugin finished early initialization".

Definition constructor (config : PlatformConfig) (w : W) : State :=
  snd (constructor_body (fresh config w)).

(** The callback given to [api.on(APIEvent.DID_FINISH_LAUNCHING, ...)]. *)
Definition didFinishLaunching : M unit :=
  log_at info "Finished launching; starting up automatic discovery" ;;
  modify (set_finder (Some {| discoveredListeners := 1; failedListeners := 1;
                              searching := true |})) ;;
  tell finder_beginSearching.

(** *** What the host, the finder, the bridges and the clock do to the platform *)

Inductive HostEvent :=
| DID_FINISH_LAUNCHING
| restored (accessory : PlatformAccessory)
| discovered (bridgeInfo : BridgeNetInfo)
| failed (e : Exn)
| unsolicited (bridge : SmartBridge) (response : Response)
| timeout (i : nat).

(** An emitter calls its listeners one after the other; a listener that
    throws ends the round. *)
Fixpoint listeners_run (n : nat) (m : M unit) : M unit :=
  match n with
  | O => ret tt
  | S k => m ;; listeners_run k m
  end.

(** The listeners the platform has attached to a bridge. *)
Definition unsolicited_listeners (bridge : SmartBridge) (s : State) : nat :=
  length (List.filter (fun c => match c with
                           | bridge_on_unsolicited b =>
                               (sb_bridgeID b =? sb_bridgeID bridge)%string
                           | _ => false
                           end) (calls s)).

Definition deliver (ev : HostEvent) : M unit :=
  match ev with
  | DID_FINISH_LAUNCHING =>
      n <- gets launchCallbacks ;; listeners_run n didFinishLaunching
  | restored accessory => configureAccessory accessory
  | discovered bridgeInfo =>
      f <- gets finder ;;
      match f with
      | Some f => listeners_run (discoveredListeners f) (handleBridgeDiscovery bridgeInfo)
      | None => ret tt
      end
  | failed e =>
      f <- gets finder ;;
      match f with
      | Some f => listeners_run (failedListeners f)
                    (log_at error ("Could not connect to discovered hub: " +:+ e))
      | None => ret tt
      end
  | unsolicited bridge response =>
      n <- gets (unsolicited_listeners bridge) ;;
      listeners_run n (handleUnsolicitedMessage (sb_bridgeID bridge) response)
  | timeout i =>
      ts <- gets timers ;;
      match ts !! i with
      | Some t =>
          modify (set_timers (fun l => (take i l ++ drop (S i) l)%list)) ;;
          processAllDevices (timer_bridge t)
      | None => ret tt
      end
  end.

Definition step (s : State) (ev : HostEvent) : State := snd (deliver ev s).

Definition run (s : State) (evs : list HostEvent) : State := fold_left step evs s.

End Platform.

Arguments case_of : simpl never.

(** Every tag some [case] label names. *)
Definition recognized_types : list string :=
  (blind_types ++ pico_types ++ sensor_types ++ native_types ++ pending_types)%list.

(** An accessory of a tilt-only blind; a call that hands an accessory to the
    blind handler or registers a blind. *)
Definition is_blind (a : PlatformAccessory) : bool :=
  case_of blind_types (DeviceType (device (context a))).



(** The shape of the device-heard notification. *)
Definition is_deviceheard (response : Response) : bool :=
  (CommuniqueType response =? "UpdateResponse")%string
  && (Header_Url response =? "/device/status/deviceheard")%string.

(** The calls a platform without discovery makes: none that attaches it to
    the launch signal, starts the finder, or touches a bridge. *)
Definition dormant_call (c : Call) : bool :=
  match c with
  | api_on_didFinishLaunching | finder_beginSearching
  | bridgeMgr_addBridge _ | bridge_getDeviceInfo _ | bridge_on_unsolicited _ => false
  | _ => true
  end.

(** A platform that is not discovering and never will: nothing waits for
    the launch signal, there is no finder, no bridge, no timer, and no call
    so far was other than dormant. *)
Definition inert {W : Type} (s : @State W) : Prop :=
  launchCallbacks s = 0 /\ finder s = None /\ bridgeMgr s = ∅ /\ timers s = [] /\
  forallb dormant_call (calls s) = true.

(** The number of error lines in the log. *)
Definition errors {W : Type} (s : @State W) : nat :=
  length (List.filter (fun e => match level e with error => true | _ => false end) (log s)).

(** ** A scripted host, for running the platform on concrete inputs *)

(** The world of the scripted host: what the registration and initialisation
    calls to come will answer ([true]: success; success once the script is
    used up) and the inventory every bridge reports.  A lookup of a bridge
    the manager does not hold is rejected. *)
Record Script := {
  registrations : list bool;
  initialisations : list bool;
  inventory : list DeviceDefinition;
}.

Definition next_registration (w : Script) : Script * Completion unit :=
  match registrations w with
  | false :: rest =>
      ({| registrations := rest; initialisations := initialisations w;
          inventory := inventory w |}, Thrown "Error: Cannot add a bridged Accessory")
  | true :: rest =>
      ({| registrations := rest; initialisations := initialisations w;
          inventory := inventory w |}, Returned tt)
  | [] => (w, Returned tt)
  end.

Definition next_initialisation (w : Script) : Script * Completion (list string) :=
  match initialisations w with
  | false :: rest =>
      ({| registrations := registrations w; initialisations := rest;
          inventory := inventory w |}, Thrown "Error: timed out")
  | true :: rest =>
      ({| registrations := registrations w; initialisations := rest;
          inventory := inventory w |}, Returned ["OccupancySensor"])
  | [] => (w, Returned ["OccupancySensor"])
  end.

Definition scripted : @Host Script :=
  {| PLUGIN_NAME := "homebridge-lutron-caseta-leap";
     PLATFORM_NAME := "LutronCasetaLeap";
     LEAP_PORT := 8081;
     inspect := displayName;
     stringify := bridgeid;
     inspect_response := Header_Url;
     uuid_generate := fun seed => "uuid-" +:+ seed;
     SerenaTiltOnlyWoodBlinds := fun _ => ["WindowCovering"];
     PicoRemote := fun _ _ => ["StatelessProgrammableSwitch"];
     OccupancySensor := fun _ => [];
     initialize := fun w _ => next_initialisation w;
     register := fun w _ => next_registration w;
     getDeviceInfo := fun w _ => (w, Returned (inventory w));
     awaitBridge := fun w id => (w, Thrown ("Error: no bridge " +:+ id)) |}.

Definition quiet : Script :=
  {| registrations := []; initialisations := []; inventory := [] |}.

Definition aa11_secret : BridgeAuthEntry :=
  {| bridgeid := "AA11"; ca := "ca"; key := "key"; cert := "cert" |}.

Definition config_with (o : option ConfigOptions) : PlatformConfig :=
  {| config_options := o; config_secrets := [aa11_secret] |}.

Definition filter_both : ConfigOptions :=
  {| cfg_filterPico := Some true; cfg_filterBlinds := Some true;
     cfg_clickSpeedLong := None; cfg_clickSpeedDouble := None |}.

Definition aa11 : SmartBridge :=
  {| sb_bridgeID := "aa11";
     sb_client := {| client_host := "10.0.0.2"; client_port := 8081;
                     client_ca := "ca"; client_key := "key"; client_cert := "cert" |} |}.

Definition living_room_pico : DeviceDefinition :=
  {| DeviceType := "Pico3Button"; SerialNumber := 12345;
     FullyQualifiedName := ["Living Room"; "Pico"] |}.

Definition bedroom_blind : DeviceDefinition :=
  {| DeviceType := "SerenaTiltOnlyWoodBlind"; SerialNumber := 777;
     FullyQualifiedName := ["Bedroom"; "Blind"] |}.

Definition hall_sensor : DeviceDefinition :=
  {| DeviceType := "RPSOccupancySensor"; SerialNumber := 4242;
     FullyQualifiedName := ["Hall"; "Sensor"] |}.

Definition mystery_device : DeviceDefinition :=
  {| DeviceType := "QuantumKeypad"; SerialNumber := 9;
     FullyQualifiedName := ["Attic"; "Keypad"] |}.


Definition deviceheard : Response :=
  {| CommuniqueType := "UpdateResponse"; Header_Url := "/device/status/deviceheard";
     Body := Some {| heard_DeviceType := "Pico3Button"; heard_SerialNumber := "12345" |} |}.

Definition bb22 : BridgeNetInfo := {| net_bridgeid := "BB22"; net_ipAddr := "10.0.0.3" |}.

Definition aa11_info : BridgeNetInfo := {| net_bridgeid := "AA11"; net_ipAddr := "10.0.0.2" |}.

(** The platform after construction, with both filters on and with the
    default options; a configuration with no credentials at all. *)
Definition started_filtering : @State Script :=
  constructor (config_with (Some filter_both)) quiet.

Definition started : @State Script := constructor (config_with None) quiet.

Definition no_secrets : PlatformConfig :=
  {| config_options := None; config_secrets := [] |}.

(** The default platform in a world whose first registration throws, and in
    one whose first sensor initialisation is rejected. *)
Definition started_flaky : @State Script :=
  constructor (config_with None)
    {| registrations := [false]; initialisations := []; inventory := [] |}.

Definition started_stalling : @State Script :=
  constructor (config_with None)
    {| registrations := []; initialisations := [false]; inventory := [] |}.

Definition pico_accessory : PlatformAccessory :=
  with_services (handle_of scripted aa11 living_room_pico) ["StatelessProgrammableSwitch"].

Definition blind_accessory : PlatformAccessory :=
  with_services (handle_of scripted aa11 bedroom_blind) ["WindowCovering"].


(** ** Invariants and effects of the platform's methods *)

(** The calls [processDevice] may make, and the registrations among them. *)
Definition device_call (c : Call) : bool :=
  match c with
  | new_platformAccessory _ _ | new_SerenaTiltOnlyWoodBlinds _ _ | new_PicoRemote _ _ _
  | new_OccupancySensor _ _ | sensor_initialize _ | registerPlatformAccessories _ _ _
  | bridgeMgr_getBridge _ => true
  | _ => false
  end.

Definition is_registration (c : Call) : bool :=
  match c with
  | registerPlatformAccessories _ _ _ => true
  | _ => false
  end.

(** The calls [configureAccessory] may make: the lookup of the bridge, a
    handler constructor, the sensor's initialisation. *)
Definition restore_call (c : Call) : bool :=
  match c with
  | bridgeMgr_getBridge _ | new_SerenaTiltOnlyWoodBlinds _ _ | new_PicoRemote _ _ _
  | new_OccupancySensor _ _ | sensor_initialize _ => true
  | _ => false
  end.

(** Every entry of the index is kept under the identity of its accessory. *)
Definition keyed {W : Type} (s : @State W) : Prop :=
  forall k a, accessories s !! k = Some a -> UUID a = k.

(** Every connection of the registry is kept under its own identity, a
    lower-case one, and its client carries the LEAP port and the stored
    credentials of that identity. *)
Definition connected_with_credentials {W : Type} (host : @Host W) (s : @State W) : Prop :=
  forall k b,
    bridgeMgr s !! k = Some b ->
    sb_bridgeID b = k /\ toLowerCase k = k /\
    exists these,
      secrets s !! k = Some these /\
      client_port (sb_client b) = LEAP_PORT host /\
      client_ca (sb_client b) = ca these /\
      client_key (sb_client b) = key these /\
      client_cert (sb_client b) = cert these.

(** What no method changes once the constructor has returned, and what only
    grows: the options, the credentials, the listener limit and the launch
    callbacks stay; no identity leaves the index; no connection leaves the
    registry or is replaced. *)
Definition evolves {W : Type} (s s' : @State W) : Prop :=
  options s' = options s /\ secrets s' = secrets s /\
  maxListeners s' = maxListeners s /\ launchCallbacks s' = launchCallbacks s /\
  dom (accessories s) ⊆ dom (accessories s') /\ bridgeMgr s ⊆ bridgeMgr s'.

(** The calls of a platform that has not been told that the host finished
    launching: none that starts discovery, touches a bridge, makes a handle
    or registers an accessory. *)
Definition prelaunch_call (c : Call) : bool :=
  match c with
  | finder_beginSearching | bridgeMgr_addBridge _ | bridge_getDeviceInfo _
  | bridge_on_unsolicited _ | new_platformAccessory _ _
  | registerPlatformAccessories _ _ _ => false
  | _ => true
  end.

Definition is_launch (ev : @HostEvent) : bool :=
  match ev with
  | DID_FINISH_LAUNCHING => true
  | _ => false
  end.

(** What a reconciliation pass and a restore leave alone: everything but the
    index, the log, the calls and the world. *)
Definition untouched {W : Type} (s s' : @State W) : Prop :=
  options s' = options s /\ secrets s' = secrets s /\ bridgeMgr s' = bridgeMgr s /\
  finder s' = finder s /\ timers s' = timers s /\ emitted s' = emitted s /\
  launchCallbacks s' = launchCallbacks s /\ maxListeners s' = maxListeners s.

(** The state in which the loop of a pass starts: the inventory request has
    gone out and the listener is attached. *)
Definition inventory_requested {W : Type} (bridge : SmartBridge) (w : W) (s : @State W)
    : @State W :=
  set_calls (fun l => l ++ [bridge_on_unsolicited bridge])%list
    (set_world w (set_calls (fun l => l ++ [bridge_getDeviceInfo bridge])%list s)).

(** The connection [handleBridgeDiscovery] builds for a discovered bridge
    from its stored credentials. *)
Definition connection {W : Type} (host : @Host W) (bridgeInfo : BridgeNetInfo)
    (these : BridgeAuthEntry) : SmartBridge :=
  {| sb_bridgeID := toLowerCase (net_bridgeid bridgeInfo);
     sb_client := {| client_host := net_ipAddr bridgeInfo; client_port := LEAP_PORT host;
                     client_ca := ca these; client_key := key these;
                     client_cert := cert these |} |}.

(** A host whose bridges do not answer the inventory request. *)
Definition silent_bridges : @Host Script :=
  {| PLUGIN_NAME := PLUGIN_NAME scripted;
     PLATFORM_NAME := PLATFORM_NAME scripted;
     LEAP_PORT := LEAP_PORT scripted;
     inspect := inspect scripted;
     stringify := stringify scripted;
     inspect_response := inspect_response scripted;
     uuid_generate := uuid_generate scripted;
     SerenaTiltOnlyWoodBlinds := SerenaTiltOnlyWoodBlinds scripted;
     PicoRemote := PicoRemote scripted;
     OccupancySensor := OccupancySensor scripted;
     initialize := initialize scripted;
     register := register scripted;
     getDeviceInfo := fun w _ => (w, Thrown "Error: request timed out");
     awaitBridge := awaitBridge scripted |}.

(** A call that attaches a listener to the bridge of a given identity, one
    that asks it for its inventory, and one that starts the finder. *)
Definition listener_on (bridge : SmartBridge) (c : Call) : bool :=
  match c with
  | bridge_on_unsolicited b => (sb_bridgeID b =? sb_bridgeID bridge)%string
  | _ => false
  end.

Definition pass_on (bridge : SmartBridge) (c : Call) : bool :=
  match c with
  | bridge_getDeviceInfo b => (sb_bridgeID b =? sb_bridgeID bridge)%string
  | _ => false
  end.

Definition is_search (c : Call) : bool :=
  match c with
  | finder_beginSearching => true
  | _ => false
  end.

(** The passes started on a bridge: the inventory requests sent to it. *)
Definition passes {W : Type} (bridge : SmartBridge) (s : @State W) : nat :=
  length (List.filter (pass_on bridge) (calls s)).

(** The times the finder was told to search. *)
Definition searches {W : Type} (s : @State W) : nat :=
  length (List.filter is_search (calls s)).

(** Calls that attach as many listeners to each bridge as they start passes
    on it, and that do not start the finder. *)
Definition steady (cs : list Call) : Prop :=
  (forall bridge, length (List.filter (listener_on bridge) cs)
                  = length (List.filter (pass_on bridge) cs)) /\
  List.filter is_search cs = [].

(** A call on neither a bridge's listeners, nor its inventory, nor the
    finder's search. *)
Definition plain_call (c : Call) : bool :=
  match c with
  | bridge_on_unsolicited _ | bridge_getDeviceInfo _ | finder_beginSearching => false
  | _ => true
  end.

(** The index, the registry and the timers are well formed. *)
Definition sound {W : Type} (host : @Host W) (s : @State W) : Prop :=
  keyed s /\ connected_with_credentials host s /\
  Forall (fun t => timer_ms t = 30000%N) (timers s).

(** The platform has not started discovery. *)
Definition waiting {W : Type} (s : @State W) : Prop :=
  finder s = None /\ bridgeMgr s = ∅ /\ timers s = [] /\
  forallb prelaunch_call (calls s) = true.

(** A world in which every bridge reports the given inventory and every
    call succeeds. *)
Definition reporting (devices : list DeviceDefinition) : Script :=
  {| registrations := []; initialisations := []; inventory := devices |}.

Definition wall_dimmer : DeviceDefinition :=
  {| DeviceType := "WallDimmer"; SerialNumber := 31;
     FullyQualifiedName := ["Kitchen"; "Dimmer"] |}.

Definition aa11_mixed_case : BridgeNetInfo :=
  {| net_bridgeid := "Aa11"; net_ipAddr := "10.0.0.2" |}.

(** What [processDevice] hands to the registration for a device that is not
    in the index, and the world in which the registration is made: the
    handle with the services of its handler, for a blind that is not
    filtered, a Pico remote, or an occupancy sensor whose initialisation
    resolves; nothing for any other device. *)
Definition prepared {W : Type} (host : @Host W) (bridge : SmartBridge)
    (d : DeviceDefinition) (s : @State W) : option (PlatformAccessory * W) :=
  let t := DeviceType d in
  let handle := handle_of host bridge d in
  if case_of blind_types t then
    if filterBlinds (options s) then None
    else Some (with_services handle (SerenaTiltOnlyWoodBlinds host handle), world s)
  else if case_of pico_types t then
    Some (with_services handle (PicoRemote host handle (options s)), world s)
  else if case_of sensor_types t then
    let sensor := with_services handle (OccupancySensor host handle) in
    match initialize host (world s) sensor with
    | (w, Returned sv) => Some (with_services sensor sv, w)
    | (_, Thrown _) => None
    end
  else None.

(** A device is eligible in a state, with an accessory: its identity is not
    in the index, the platform sets the device up as that accessory, and
    the host accepts the registration. *)
Definition eligible {W : Type} (host : @Host W) (bridge : SmartBridge)
    (d : DeviceDefinition) (s : @State W) (a : PlatformAccessory) : Prop :=
  accessories s !! uuid_of host d = None /\
  match prepared host bridge d s with
  | Some (a', w) => a' = a /\ snd (register host w [a']) = Returned tt
  | None => False
  end.

(** ** Properties *)

Arguments String.append : simpl never.
Arguments join : simpl never.
Arguments toString : simpl never.

Section Properties.

Context {W : Type} (host : @Host W).

Implicit Types (s : @State W) (d : DeviceDefinition) (bridge : SmartBridge).

Lemma case_of_In labels t : case_of labels t = true <-> In t labels.
Proof.
  unfold case_of. rewrite existsb_exists. split.
  - intros [x [Hin Heq]]. apply String.eqb_eq in Heq. now subst.
  - intros Hin. exists t. split; [assumption | apply String.eqb_refl].
Qed.

Lemma case_of_app l1 l2 t : case_of (l1 ++ l2) t = case_of l1 t || case_of l2 t.
Proof. unfold case_of. apply existsb_app. Qed.

Lemma pico_not_blind t : case_of pico_types t = true -> case_of blind_types t = false.
Proof.
  rewrite case_of_In. intros Hin.
  repeat (destruct Hin as [<- | Hin]; [reflexivity |]). destruct Hin.
Qed.

Lemma unrecognized_cases t :
  case_of recognized_types t = false ->
  case_of blind_types t = false /\ case_of pico_types t = false /\
  case_of sensor_types t = false /\ case_of native_types t = false /\
  case_of pending_types t = false.
Proof.
  unfold recognized_types. rewrite !case_of_app, !orb_false_iff. tauto.
Qed.

(** *** The credential store *)

Lemma secretsFromConfig_snoc options entries entry :
  secretsFromConfig {| config_options := options;
                       config_secrets := (entries ++ [entry])%list |}
  = <[toLowerCase (bridgeid entry) :=
        {| ca := ca entry; key := key entry; cert := cert entry;
           bridgeid := bridgeid entry |}]>
      (secretsFromConfig {| config_options := options; config_secrets := entries |}).
Proof. unfold secretsFromConfig. cbn. rewrite fold_left_app. reflexivity. Qed.

(** The store has no entry for an identity exactly when no configured
    credential has that identity once lower-cased. *)
Lemma secretsFromConfig_lookup_None config id :
  secretsFromConfig config !! id = None <->
  Forall (fun entry => toLowerCase (bridgeid entry) <> id) (config_secrets config).
Proof.
  destruct config as [options entries]. cbn [config_secrets].
  induction entries as [| entry entries IH] using rev_ind.
  - split; [constructor | reflexivity].
  - rewrite secretsFromConfig_snoc, Forall_app, Forall_singleton, <- IH.
    rewrite lookup_insert_None. tauto.
Qed.

(** The store is empty exactly when no credential is configured. *)
Lemma secretsFromConfig_empty config :
  size (secretsFromConfig config) = 0 <-> config_secrets config = [].
Proof.
  destruct config as [options entries]. cbn [config_secrets]. split.
  - destruct entries as [| entry entries] using rev_ind; [reflexivity |].
    rewrite secretsFromConfig_snoc. intros Hsize. apply map_size_empty_inv in Hsize.
    exfalso. exact (insert_non_empty _ _ _ Hsize).
  - intros ->. reflexivity.
Qed.

(** Case analysis along the branches of a method. *)
Ltac branch :=
  repeat (cbn in *;
          match goal with
          | |- context [match ?x with _ => _ end] =>
              lazymatch x with
              | context [match _ with _ => _ end] => fail
              | _ => destruct x eqn:?
              end
          end);
  cbn in *.

Ltac unfold_M :=
  unfold log_at, tell in *;
  unfold bind, ret, gets, modify, ask, attempt, throw in *.

Ltac pd_cases :=
  unfold processDevice, processDevice_setup, processDevice_switch, processDevice_register,
    handle_of in *;
  unfold fullName_of, uuid_of in *;
  unfold_M; branch.

(** A device whose identity is in the index is skipped with one log line. *)
Lemma processDevice_known bridge d s a :
  accessories s !! uuid_of host d = Some a ->
  processDevice host bridge d s =
    (Returned tt,
     set_log (fun l => l ++ [{| level := info;
                                message := "Accessory " +:+ DeviceType d +:+ " "
                                           +:+ uuid_of host d +:+ " " +:+ fullName_of d
                                           +:+ " already set up. Skipping." |}])%list s).
Proof.
  intros Hin. unfold processDevice, bind, gets. fold (uuid_of host d). rewrite Hin.
  reflexivity.
Qed.

(** What [processDevice] leaves alone, and how the rest grows. *)
Lemma processDevice_frame bridge d s :
  let s' := snd (processDevice host bridge d s) in
  options s' = options s /\ secrets s' = secrets s /\ bridgeMgr s' = bridgeMgr s /\
  finder s' = finder s /\ timers s' = timers s /\ emitted s' = emitted s /\
  launchCallbacks s' = launchCallbacks s /\ maxListeners s' = maxListeners s.
Proof. pd_cases; repeat split; reflexivity. Qed.

Lemma processDevice_index bridge d s :
  let r := processDevice host bridge d s in
  accessories (snd r) = accessories s \/
  (fst r = Returned tt /\ accessories s !! uuid_of host d = None /\
   exists sv, accessories (snd r)
              = <[uuid_of host d := with_services (handle_of host bridge d) sv]> (accessories s)).
Proof.
  pd_cases; try (left; reflexivity); right; repeat split; auto; eexists; reflexivity.
Qed.

(** *** Single devices *)

(** C1, as amended: the remote filter option plays no part in [processDevice].
    For a remote whose identity is not in the index, whatever [filterPico]
    says, the handle is made, the remote handler is given it together with
    the options, registration is called, no warning is logged (one
    informational line, and the error line when registration throws), and
    the handle enters the index exactly when registration returns. *)
Theorem processDevice_pico_ignores_filter bridge d s :
  case_of pico_types (DeviceType d) = true ->
  accessories s !! uuid_of host d = None ->
  fst (processDevice host bridge d s) = Returned tt /\
  calls (snd (processDevice host bridge d s)) =
    (calls s ++
     [new_platformAccessory (fullName_of d) (uuid_of host d);
      bridgeMgr_getBridge (sb_bridgeID bridge);
      new_PicoRemote (handle_of host bridge d) (sb_bridgeID bridge) (options s);
      registerPlatformAccessories (PLUGIN_NAME host) (PLATFORM_NAME host)
        [with_services (handle_of host bridge d)
           (PicoRemote host (handle_of host bridge d) (options s))]])%list /\
  log (snd (processDevice host bridge d s)) =
    (log s ++
     {| level := info;
        message := "Found a new " +:+ DeviceType d +:+ " remote " +:+ fullName_of d |}
     :: match snd (register host (world s)
                     [with_services (handle_of host bridge d)
                        (PicoRemote host (handle_of host bridge d) (options s))]) with
        | Returned _ => []
        | Thrown e =>
            [{| level := error;
                message := "Could not register " +:+ DeviceType d +:+ " named "
                           +:+ fullName_of d +:+ " with uuid " +:+ uuid_of host d
                           +:+ ": " +:+ e |}]
        end)%list /\
  accessories (snd (processDevice host bridge d s)) =
    match snd (register host (world s)
                 [with_services (handle_of host bridge d)
                    (PicoRemote host (handle_of host bridge d) (options s))]) with
    | Returned _ =>
        <[uuid_of host d := with_services (handle_of host bridge d)
                              (PicoRemote host (handle_of host bridge d) (options s))]>
          (accessories s)
    | Thrown _ => accessories s
    end.
Proof.
  intros Hpico Hnone. pose proof (pico_not_blind _ Hpico) as Hblind.
  pd_cases; try congruence;
    repeat split; rewrite <- ?app_assoc; cbn [app]; reflexivity.
Qed.

(** C3, as amended: a device of no recognized type is never handed to a
    handler, never registered and never inserted; [processDevice] returns
    and logs one informational line; the handle made for it (when its
    identity is not in the index) is dropped; and the loop goes on with the
    rest of the inventory. *)
Theorem processDevice_unrecognized bridge d rest s :
  case_of recognized_types (DeviceType d) = false ->
  fst (processDevice host bridge d s) = Returned tt /\
  accessories (snd (processDevice host bridge d s)) = accessories s /\
  calls (snd (processDevice host bridge d s)) =
    (calls s ++ match accessories s !! uuid_of host d with
                | Some _ => []
                | None => [new_platformAccessory (fullName_of d) (uuid_of host d)]
                end)%list /\
  (exists msg, log (snd (processDevice host bridge d s))
               = (log s ++ [{| level := info; message := msg |}])%list) /\
  processAllDevices_loop host bridge (d :: rest) s =
    processAllDevices_loop host bridge rest (snd (processDevice host bridge d s)).
Proof.
  intros Hun. apply unrecognized_cases in Hun as (Hb & Hp & Hs & Hn & Hu).
  cbn [processAllDevices_loop]. unfold processAllDevices_one.
  pd_cases; try congruence.
  - rewrite app_nil_r. repeat split; try reflexivity. eexists; reflexivity.
  - repeat split; try reflexivity. eexists; reflexivity.
Qed.

(** [processDevice], stage by stage. *)
Lemma processDevice_stages bridge d s :
  processDevice host bridge d s =
    match accessories s !! uuid_of host d with
    | Some _ =>
        (Returned tt,
         set_log (fun l => l ++ [{| level := info;
                                    message := "Accessory " +:+ DeviceType d +:+ " "
                                               +:+ uuid_of host d +:+ " " +:+ fullName_of d
                                               +:+ " already set up. Skipping." |}])%list s)
    | None =>
        match processDevice_setup host bridge d (fullName_of d) (uuid_of host d) s with
        | (Returned (Break accessory), s1) =>
            processDevice_register host d (fullName_of d) (uuid_of host d) accessory s1
        | (Returned Return, s1) => (Returned tt, s1)
        | (Thrown e, s1) => (Thrown e, s1)
        end
    end.
Proof.
  unfold processDevice. fold (fullName_of d). fold (uuid_of host d).
  unfold bind at 1. unfold gets at 1.
  destruct (accessories s !! uuid_of host d); [reflexivity |].
  unfold bind at 1.
  destruct (processDevice_setup host bridge d (fullName_of d) (uuid_of host d) s)
    as [[[accessory |] | e] s1]; reflexivity.
Qed.

Lemma processDevice_setup_accessories bridge d fullName uuid s :
  accessories (snd (processDevice_setup host bridge d fullName uuid s)) = accessories s.
Proof.
  unfold processDevice_setup, processDevice_switch. unfold_M. branch; reflexivity.
Qed.

(** C8: registration atomicity.  When the per-type stage of [processDevice]
    has ended in [break] with an accessory, [processDevice] returns whatever
    registration does and makes exactly that one registration call; if the
    call throws, the error is logged and the index is as before, without the
    device's identity, so a later pass takes the device up again; if it
    returns, the index gains the accessory under the device's identity.
    And the index changes only that way. *)
Theorem registration_atomicity bridge d s :
  (forall s1 accessory,
     accessories s !! uuid_of host d = None ->
     processDevice_setup host bridge d (fullName_of d) (uuid_of host d) s
       = (Returned (Break accessory), s1) ->
     fst (processDevice host bridge d s) = Returned tt /\
     calls (snd (processDevice host bridge d s)) =
       (calls s1 ++ [registerPlatformAccessories (PLUGIN_NAME host) (PLATFORM_NAME host)
                       [accessory]])%list /\
     match snd (register host (world s1) [accessory]) with
     | Thrown e =>
         accessories (snd (processDevice host bridge d s)) = accessories s /\
         accessories (snd (processDevice host bridge d s)) !! uuid_of host d = None /\
         log (snd (processDevice host bridge d s)) =
           (log s1 ++ [{| level := error;
                          message := "Could not register " +:+ DeviceType d +:+ " named "
                                     +:+ fullName_of d +:+ " with uuid " +:+ uuid_of host d
                                     +:+ ": " +:+ e |}])%list
     | Returned _ =>
         accessories (snd (processDevice host bridge d s)) =
           <[uuid_of host d := accessory]> (accessories s)
     end) /\
  (accessories (snd (processDevice host bridge d s)) <> accessories s ->
   exists s1 accessory,
     processDevice_setup host bridge d (fullName_of d) (uuid_of host d) s
       = (Returned (Break accessory), s1) /\
     snd (register host (world s1) [accessory]) = Returned tt /\
     accessories (snd (processDevice host bridge d s)) =
       <[uuid_of host d := accessory]> (accessories s)).
Proof.
  rewrite processDevice_stages.
  pose proof (processDevice_setup_accessories bridge d (fullName_of d) (uuid_of host d) s)
    as Hacc.
  split.
  - intros s1 accessory Hnone Hsetup. rewrite Hnone, Hsetup. rewrite Hsetup in Hacc.
    cbn in Hacc. unfold processDevice_register. unfold_M.
    destruct (register host (world s1) [accessory]) as [w [[] | e]]; cbn;
      rewrite ?Hacc; repeat split; auto.
  - intros Hchanged.
    destruct (accessories s !! uuid_of host d) eqn:Hlook.
    { exfalso. apply Hchanged. reflexivity. }
    destruct (processDevice_setup host bridge d (fullName_of d) (uuid_of host d) s)
      as [[[accessory |] | e] s1] eqn:Hsetup; cbn in Hacc.
    + exists s1, accessory. split; [reflexivity |].
      unfold processDevice_register in *. unfold_M.
      destruct (register host (world s1) [accessory]) as [w [[] | e]]; cbn in *.
      * rewrite Hacc. split; reflexivity.
      * exfalso. apply Hchanged. exact Hacc.
    + exfalso. apply Hchanged. exact Hacc.
    + exfalso. apply Hchanged. exact Hacc.
Qed.

(** *** The inventory loop *)

Lemma processAllDevices_one_eq bridge d s :
  processAllDevices_one host bridge d s =
    match processDevice host bridge d s with
    | (Returned _, s') => (Returned tt, s')
    | (Thrown e, s') =>
        (Returned tt,
         set_log (fun l => l ++ [{| level := error;
                                    message := "Failed to process device "
                                               +:+ fullName_of d |}])%list s')
    end.
Proof.
  unfold processAllDevices_one, bind, attempt.
  destruct (processDevice host bridge d s) as [[[] | e] s']; reflexivity.
Qed.

Lemma processAllDevices_one_returns bridge d s :
  fst (processAllDevices_one host bridge d s) = Returned tt.
Proof.
  rewrite processAllDevices_one_eq.
  destruct (processDevice host bridge d s) as [[[] | e] s']; reflexivity.
Qed.

Lemma processAllDevices_loop_cons bridge d rest s :
  processAllDevices_loop host bridge (d :: rest) s =
    processAllDevices_loop host bridge rest (snd (processAllDevices_one host bridge d s)).
Proof.
  cbn [processAllDevices_loop]. unfold bind.
  pose proof (processAllDevices_one_returns bridge d s) as Hret.
  destruct (processAllDevices_one host bridge d s) as [[[] | e] s']; [reflexivity | discriminate].
Qed.

Lemma processAllDevices_loop_returns bridge devices s :
  fst (processAllDevices_loop host bridge devices s) = Returned tt.
Proof.
  revert s. induction devices as [| d rest IH]; intros s; [reflexivity |].
  rewrite processAllDevices_loop_cons. apply IH.
Qed.

Lemma processAllDevices_loop_app bridge l1 l2 s :
  processAllDevices_loop host bridge (l1 ++ l2) s =
    processAllDevices_loop host bridge l2 (snd (processAllDevices_loop host bridge l1 s)).
Proof.
  revert s. induction l1 as [| d rest IH]; intros s; [reflexivity |].
  cbn [app]. rewrite !processAllDevices_loop_cons. apply IH.
Qed.

Lemma processAllDevices_one_accessories bridge d s :
  accessories (snd (processAllDevices_one host bridge d s)) =
    accessories (snd (processDevice host bridge d s)).
Proof.
  rewrite processAllDevices_one_eq.
  destruct (processDevice host bridge d s) as [[[] | e] s']; reflexivity.
Qed.

(** The index only grows, and never at an identity it holds. *)
Lemma processDevice_index_mono bridge d s :
  accessories s ⊆ accessories (snd (processDevice host bridge d s)).
Proof.
  destruct (processDevice_index bridge d s) as [-> | (_ & Hnone & sv & ->)]; [done |].
  by apply insert_subseteq.
Qed.

Lemma processAllDevices_loop_index_mono bridge devices s :
  accessories s ⊆ accessories (snd (processAllDevices_loop host bridge devices s)).
Proof.
  revert s. induction devices as [| d rest IH]; intros s; [done |].
  rewrite processAllDevices_loop_cons. etrans; [| apply IH].
  rewrite processAllDevices_one_accessories. apply processDevice_index_mono.
Qed.

(** *** Filtering blinds *)

Ltac extends :=
  first [ rewrite <- ?app_assoc; reflexivity | symmetry; apply app_nil_r ].





(** *** Running the same inventory again *)

Lemma errors_app s (f : list LogEntry -> list LogEntry) ls :
  (forall l, f l = (l ++ ls)%list) ->
  errors (set_log f s) =
    errors s + length (List.filter (fun e => match level e with error => true | _ => false end) ls).
Proof.
  intros Hf. unfold errors. cbn. rewrite Hf, List.filter_app, length_app. reflexivity.
Qed.

Lemma processDevice_outcome bridge d s :
  match fst (processDevice host bridge d s) with
  | Returned _ =>
      (errors (snd (processDevice host bridge d s)) = errors s /\
       settled host d (snd (processDevice host bridge d s))) \/
      errors (snd (processDevice host bridge d s)) = S (errors s)
  | Thrown _ => errors (snd (processDevice host bridge d s)) = errors s
  end.
Proof.
  unfold settled, skips, errors.
  pd_cases; rewrite ?List.filter_app, ?length_app; cbn; rewrite ?Nat.add_0_r;
    try reflexivity;
    try (left; split; [reflexivity |]);
    try (right; rewrite Nat.add_1_r; reflexivity);
    try (right; reflexivity);
    try (left; rewrite lookup_insert_eq; eexists; reflexivity);
    try (left; eexists; eassumption);
    try (right; assumption).
Qed.

Lemma processAllDevices_one_outcome bridge d s :
  (errors (snd (processAllDevices_one host bridge d s)) = errors s /\
   settled host d (snd (processAllDevices_one host bridge d s))) \/
  errors (snd (processAllDevices_one host bridge d s)) = S (errors s).
Proof.
  rewrite processAllDevices_one_eq. pose proof (processDevice_outcome bridge d s) as H.
  destruct (processDevice host bridge d s) as [[[] | e] s']; cbn [fst snd] in *; [exact H |].
  right. erewrite errors_app by (intros l; reflexivity). cbn. lia.
Qed.








(** *** Discovery *)

(** C7: a discovered bridge that the registry does not hold and for which
    the credential store has no entry under its lower-cased identity makes
    [handleBridgeDiscovery] throw, and leaves the platform as it was: no
    connection is registered, nothing is called, nothing is logged. *)
Theorem handleBridgeDiscovery_no_credentials bridgeInfo s :
  bridgeMgr s !! toLowerCase (net_bridgeid bridgeInfo) = None ->
  secrets s !! toLowerCase (net_bridgeid bridgeInfo) = None ->
  handleBridgeDiscovery host bridgeInfo s =
    (Thrown ("Error: no credentials for bridge ID " +:+ net_bridgeid bridgeInfo), s).
Proof.
  intros Hmgr Hsec. unfold handleBridgeDiscovery, hasBridge. unfold_M.
  rewrite Hmgr. cbn. rewrite Hsec. reflexivity.
Qed.

(** *** Unsolicited notifications *)

(** One call of the router.  A device-heard notification is
    never forwarded; when it carries a body, the router returns, and it
    schedules one re-reconciliation, 30000 ms ahead, of the bridge the
    lookup by identity resolves to (the registered connection, when the
    registry holds the identity), or, when the lookup is rejected, logs the
    error and schedules nothing.  A notification of any other shape is
    forwarded as it is and nothing is scheduled. *)
Theorem unsolicited_routing bridgeID response s :
  if is_deviceheard response then
    emitted (snd (handleUnsolicitedMessage host bridgeID response s)) = emitted s /\
    (forall heard, Body response = Some heard ->
       fst (handleUnsolicitedMessage host bridgeID response s) = Returned tt /\
       match fst (getBridge host bridgeID s) with
       | Returned bridge =>
           timers (snd (handleUnsolicitedMessage host bridgeID response s)) =
             (timers s ++ [{| timer_ms := 30000; timer_bridge := bridge |}])%list
       | Thrown e =>
           timers (snd (handleUnsolicitedMessage host bridgeID response s)) = timers s /\
           In {| level := error;
                 message := "Failed to trigger device refresh due to newly-heard device: "
                            +:+ e |}
              (log (snd (handleUnsolicitedMessage host bridgeID response s)))
       end) /\
    (forall heard bridge, Body response = Some heard ->
       bridgeMgr s !! bridgeID = Some bridge ->
       timers (snd (handleUnsolicitedMessage host bridgeID response s)) =
         (timers s ++ [{| timer_ms := 30000; timer_bridge := bridge |}])%list)
  else
    fst (handleUnsolicitedMessage host bridgeID response s) = Returned tt /\
    emitted (snd (handleUnsolicitedMessage host bridgeID response s)) =
      (emitted s ++ [response])%list /\
    timers (snd (handleUnsolicitedMessage host bridgeID response s)) = timers s.
Proof.
  unfold handleUnsolicitedMessage, is_deviceheard, getBridge, setTimeout, emit_unsolicited.
  unfold_M. cbn.
  destruct ((CommuniqueType response =? "UpdateResponse")%string
            && (Header_Url response =? "/device/status/deviceheard")%string).
  - split; [| split].
    + branch; reflexivity.
    + intros heard ->. branch; repeat split; try reflexivity.
      rewrite !in_app_iff. cbn. auto.
    + intros heard bridge -> Hmgr. cbn. rewrite Hmgr. reflexivity.
  - cbn. repeat split.
Qed.

(** *** Restoring cached accessories *)

(** C10: [configureAccessory] returns, and inserts the restored accessory
    under its own identity whatever its persisted type, an unrecognized one
    included (as it came, with a warning), so that [processDevice] skips
    every device of that identity from then on; the one exception is a
    blind while the blinds filter is on: that one is skipped with a warning
    and the index stays as it was. *)
Theorem configureAccessory_inserts accessory s :
  fst (configureAccessory host accessory s) = Returned tt /\
  if is_blind accessory && filterBlinds (options s) then
    accessories (snd (configureAccessory host accessory s)) = accessories s /\
    In {| level := warn;
          message := "Serena wood blinds support disabled. Skipping "
                     +:+ fullName_of (device (context accessory)) |}
       (log (snd (configureAccessory host accessory s)))
  else
    (exists sv,
       accessories (snd (configureAccessory host accessory s)) =
         <[UUID accessory := with_services accessory sv]> (accessories s)) /\
    (case_of (blind_types ++ pico_types ++ sensor_types)
       (DeviceType (device (context accessory))) = false ->
     accessories (snd (configureAccessory host accessory s)) =
       <[UUID accessory := accessory]> (accessories s) /\
     In {| level := warn;
           message := "Accessory " +:+ inspect host accessory
                      +:+ " was cached but is not supported. Did you downgrade?" |}
        (log (snd (configureAccessory host accessory s)))) /\
    (forall st bridge d,
       accessories (snd (configureAccessory host accessory s)) ⊆ accessories st ->
       uuid_of host d = UUID accessory ->
       fst (processDevice host bridge d st) = Returned tt /\
       calls (snd (processDevice host bridge d st)) = calls st /\
       accessories (snd (processDevice host bridge d st)) = accessories st).
Proof.
  split.
  { unfold configureAccessory, configureAccessory_switch. unfold_M. branch; reflexivity. }
  destruct (is_blind accessory && filterBlinds (options s)) eqn:Hskip.
  - unfold is_blind in Hskip. apply andb_prop in Hskip as [Hblind Hfilter].
    unfold configureAccessory, configureAccessory_switch, fullName_of. unfold_M.
    cbn. rewrite Hblind. cbn. rewrite Hfilter. cbn.
    split; [reflexivity | rewrite !in_app_iff; cbn; auto].
  - assert (Hins : exists sv,
               accessories (snd (configureAccessory host accessory s)) =
                 <[UUID accessory := with_services accessory sv]> (accessories s) /\
               (case_of (blind_types ++ pico_types ++ sensor_types)
                  (DeviceType (device (context accessory))) = false ->
                sv = services accessory /\
                In {| level := warn;
                      message := "Accessory " +:+ inspect host accessory
                                 +:+ " was cached but is not supported. Did you downgrade?" |}
                   (log (snd (configureAccessory host accessory s))))).
    { unfold is_blind in Hskip. rewrite !case_of_app.
      unfold configureAccessory, configureAccessory_switch. unfold_M.
      destruct accessory as [name uuid ctx sv0].
      branch; try discriminate; eexists; (split; [reflexivity |]); try (intros [=]).
      split; [reflexivity | rewrite !in_app_iff; cbn; auto]. }
    destruct Hins as (sv & Hacc & Hunrec).
    split; [exists sv; exact Hacc |]. split.
    + intros Hcase. destruct (Hunrec Hcase) as [-> Hwarn]. split; [| exact Hwarn].
      rewrite Hacc. destruct accessory; reflexivity.
    + intros st bridge d Hsub Huuid.
      assert (Hlook : accessories st !! uuid_of host d = Some (with_services accessory sv)).
      { eapply lookup_weaken; [| exact Hsub]. rewrite Hacc, Huuid. apply lookup_insert_eq. }
      rewrite (processDevice_known _ _ _ _ Hlook). repeat split.
Qed.

(** *** Start-up without credentials *)

Lemma dormant_no_listeners bridge s :
  forallb dormant_call (calls s) = true -> unsolicited_listeners bridge s = 0.
Proof.
  unfold unsolicited_listeners. induction (calls s) as [| c cs IH]; [reflexivity |].
  cbn [forallb List.filter]. intros [Hc Hcs]%andb_prop.
  destruct c; try discriminate; cbn; auto.
Qed.

Lemma configureAccessory_inert accessory s :
  inert s -> inert (snd (configureAccessory host accessory s)).
Proof.
  unfold inert. intros (Hl & Hf & Hb & Ht & Hc).
  unfold configureAccessory, configureAccessory_switch. unfold_M.
  branch; repeat split; try assumption;
    rewrite ?forallb_app, Hc; reflexivity.
Qed.

Lemma step_inert s ev : inert s -> inert (step host s ev).
Proof.
  intros Hs. pose proof Hs as (Hl & Hf & Hb & Ht & Hc).
  unfold step. destruct ev as [| accessory | bridgeInfo | e | bridge response | i];
    cbn [deliver].
  - unfold bind, gets. rewrite Hl. exact Hs.
  - apply configureAccessory_inert, Hs.
  - unfold bind, gets. rewrite Hf. exact Hs.
  - unfold bind, gets. rewrite Hf. exact Hs.
  - unfold bind, gets. rewrite (dormant_no_listeners _ _ Hc). exact Hs.
  - unfold bind, gets. rewrite Ht. exact Hs.
Qed.

Lemma run_inert s evs : inert s -> inert (run host s evs).
Proof.
  revert s. induction evs as [| ev evs IH]; intros s Hs; [exact Hs |].
  cbn. apply IH, step_inert, Hs.
Qed.

Lemma dormant_calls_absent (cs : list Call) c :
  forallb dormant_call cs = true -> dormant_call c = false -> ~ In c cs.
Proof.
  intros Hall Hc Hin. rewrite forallb_forall in Hall. apply Hall in Hin. congruence.
Qed.

(** C9: when the credential store built from the configuration is empty,
    the constructor warns and returns before attaching anything to the
    finished-launching signal; whatever the host, a finder, a bridge or a
    timer could do afterwards, no finder is ever created, [beginSearching]
    is never called and no bridge is ever registered. *)
Theorem no_credentials_no_discovery config w evs :
  size (secretsFromConfig config) = 0 ->
  log (constructor config w) =
    [{| level := info; message := "LutronCasetaLeap starting up..." |};
     {| level := warn; message := "No bridge auth configured. Retiring." |}] /\
  launchCallbacks (constructor config w) = 0 /\
  ~ In api_on_didFinishLaunching (calls (run host (constructor config w) evs)) /\
  finder (run host (constructor config w) evs) = None /\
  ~ In finder_beginSearching (calls (run host (constructor config w) evs)) /\
  bridgeMgr (run host (constructor config w) evs) = ∅ /\
  (forall b, ~ In (bridgeMgr_addBridge b) (calls (run host (constructor config w) evs))).
Proof.
  intros Hempty.
  assert (Hctor : constructor config w =
                  set_log (fun l => l ++ [{| level := warn;
                                             message := "No bridge auth configured. Retiring." |}])%list
                    (set_calls (fun l => l ++ [process_on "warning"])%list
                       (set_log (fun l => l ++ [{| level := info;
                                                   message := "LutronCasetaLeap starting up..." |}])%list
                          (fresh config w)))).
  { unfold constructor, constructor_body. unfold_M. cbn. rewrite Hempty. reflexivity. }
  assert (Hinert : inert (constructor config w)).
  { rewrite Hctor. repeat split. }
  pose proof (run_inert _ evs Hinert) as (Hl & Hf & Hb & Ht & Hc).
  rewrite Hctor at 1 2. cbn [log launchCallbacks set_log set_calls fresh app].
  split; [reflexivity |]. split; [reflexivity |].
  split; [apply (dormant_calls_absent _ _ Hc); reflexivity |].
  split; [assumption |].
  split; [apply (dormant_calls_absent _ _ Hc); reflexivity |].
  split; [assumption |].
  intros b. apply (dormant_calls_absent _ _ Hc). reflexivity.
Qed.

(** *** Listeners on a bridge *)

Lemma processDevice_listeners bridge b d s :
  unsolicited_listeners b (snd (processDevice host bridge d s)) = unsolicited_listeners b s.
Proof.
  unfold unsolicited_listeners.
  pd_cases; rewrite ?List.filter_app, ?length_app; cbn; rewrite ?Nat.add_0_r; reflexivity.
Qed.

Lemma processAllDevices_loop_listeners bridge b devices s :
  unsolicited_listeners b (snd (processAllDevices_loop host bridge devices s))
    = unsolicited_listeners b s.
Proof.
  revert s. induction devices as [| d rest IH]; intros s; [reflexivity |].
  rewrite processAllDevices_loop_cons, IH, processAllDevices_one_eq.
  pose proof (processDevice_listeners bridge b d s) as H.
  destruct (processDevice host bridge d s) as [[[] | e] s']; exact H.
Qed.

(** Every pass attaches one more listener to the bridge it runs on. *)
Lemma processAllDevices_attaches_listener bridge s :
  unsolicited_listeners bridge (snd (processAllDevices host bridge s))
    = S (unsolicited_listeners bridge s).
Proof.
  unfold processAllDevices. unfold bind at 1. unfold attempt at 1. unfold ask at 1.
  destruct (getDeviceInfo host (world s) bridge) as [w [devices | e]].
  - unfold bind at 1. unfold tell at 1, modify at 1. unfold bind, attempt.
    pose proof (processAllDevices_loop_returns bridge devices
                  (set_calls (fun l => l ++ [bridge_on_unsolicited bridge])%list
                     (set_world w
                        (set_calls (fun l => l ++ [bridge_getDeviceInfo bridge])%list s))))
      as Hret.
    pose proof (processAllDevices_loop_listeners bridge bridge devices
                  (set_calls (fun l => l ++ [bridge_on_unsolicited bridge])%list
                     (set_world w
                        (set_calls (fun l => l ++ [bridge_getDeviceInfo bridge])%list s))))
      as Hloop.
    destruct (processAllDevices_loop host bridge devices _) as [[[] | e] s'];
      [| discriminate].
    cbn [snd ret] in *. rewrite Hloop.
    unfold unsolicited_listeners. cbn. rewrite !List.filter_app, !length_app. cbn.
    rewrite String.eqb_refl. cbn. lia.
  - unfold_M. cbn. unfold unsolicited_listeners. cbn.
    rewrite !List.filter_app, !length_app. cbn. rewrite String.eqb_refl. cbn. lia.
Qed.

Lemma router_runs_per_listener bridgeID bridge response heard n s :
  is_deviceheard response = true ->
  Body response = Some heard ->
  bridgeMgr s !! bridgeID = Some bridge ->
  timers (snd (listeners_run n (handleUnsolicitedMessage host bridgeID response) s))
    = (timers s ++ repeat {| timer_ms := 30000; timer_bridge := bridge |} n)%list /\
  bridgeMgr (snd (listeners_run n (handleUnsolicitedMessage host bridgeID response) s))
    = bridgeMgr s.
Proof.
  intros Hshape Hbody. revert s. induction n as [| n IH]; intros s Hmgr.
  - cbn. rewrite app_nil_r. split; reflexivity.
  - assert (Hone : exists s1,
               handleUnsolicitedMessage host bridgeID response s = (Returned tt, s1) /\
               timers s1 = (timers s ++ [{| timer_ms := 30000; timer_bridge := bridge |}])%list /\
               bridgeMgr s1 = bridgeMgr s).
    { unfold is_deviceheard in Hshape.
      unfold handleUnsolicitedMessage, getBridge, setTimeout. unfold_M. cbn.
      rewrite Hshape, Hbody. cbn. rewrite Hmgr. cbn. eexists. repeat split. }
    destruct Hone as (s1 & Hone & Htimers & Hmgr1).
    assert (Hnext : listeners_run (S n) (handleUnsolicitedMessage host bridgeID response) s
                    = listeners_run n (handleUnsolicitedMessage host bridgeID response) s1).
    { cbn [listeners_run]. unfold bind. rewrite Hone. reflexivity. }
    rewrite Hnext.
    destruct (IH s1) as [Ht Hb]; [rewrite Hmgr1; exact Hmgr |].
    split; [rewrite Ht, Htimers, <- app_assoc; reflexivity | rewrite Hb; exact Hmgr1].
Qed.

(** A device-heard notification from a registered bridge schedules as many
    refreshes as the bridge has listeners. *)
Lemma notification_reaches_every_listener bridge registered response heard s :
  is_deviceheard response = true ->
  Body response = Some heard ->
  bridgeMgr s !! sb_bridgeID bridge = Some registered ->
  timers (step host s (unsolicited bridge response))
    = (timers s ++ repeat {| timer_ms := 30000; timer_bridge := registered |}
                     (unsolicited_listeners bridge s))%list.
Proof.
  intros Hshape Hbody Hmgr. unfold step. cbn [deliver]. unfold bind, gets.
  apply (router_runs_per_listener _ _ _ _ _ _ Hshape Hbody Hmgr).
Qed.

(** *** More on single devices *)

Lemma unmanaged_cases t :
  case_of (native_types ++ pending_types) t = true ->
  case_of blind_types t = false /\ case_of pico_types t = false /\
  case_of sensor_types t = false.
Proof.
  rewrite case_of_In. intros Hin. cbn in Hin.
  repeat (destruct Hin as [<- | Hin]; [repeat split; reflexivity |]). destruct Hin.
Qed.

Lemma sensor_cases t :
  case_of sensor_types t = true ->
  case_of blind_types t = false /\ case_of pico_types t = false.
Proof.
  rewrite case_of_In. intros Hin. cbn in Hin.
  repeat (destruct Hin as [<- | Hin]; [repeat split; reflexivity |]). destruct Hin.
Qed.

(** A device of a type the host platform supports natively, or of a known
    type that is not supported yet, is skipped: the handle made for it is
    dropped, one informational line says which of the two it is, nothing is
    handed to a handler or registered, and the index stays as it was. *)
Theorem processDevice_skips_unmanaged bridge d s :
  case_of (native_types ++ pending_types) (DeviceType d) = true ->
  accessories s !! uuid_of host d = None ->
  processDevice host bridge d s =
    (Returned tt,
     set_log (fun l =>
                l ++ [{| level := info;
                         message :=
                           if case_of native_types (DeviceType d)
                           then "Device type " +:+ DeviceType d
                                +:+ " supported natively, skipping setup"
                           else "Device type " +:+ DeviceType d
                                +:+ " not yet supported, skipping setup. Please file a request ticket." |}])%list
       (set_calls (fun l => l ++ [new_platformAccessory (fullName_of d) (uuid_of host d)])%list
          s)).
Proof.
  intros Hun Hnone. destruct (unmanaged_cases _ Hun) as (Hb & Hp & Hs).
  rewrite case_of_app in Hun.
  pd_cases; try congruence; reflexivity.
Qed.

(** An occupancy sensor is registered only after its initialisation has
    resolved: when the initialisation is rejected, [processDevice] throws
    that error, makes no registration call and leaves the index as it was;
    when it resolves, the registration call comes next and registers the
    accessory with the services of the initialised sensor. *)
Theorem processDevice_sensor_waits bridge d s :
  case_of sensor_types (DeviceType d) = true ->
  accessories s !! uuid_of host d = None ->
  match snd (initialize host (world s)
               (with_services (handle_of host bridge d)
                  (OccupancySensor host (handle_of host bridge d)))) with
  | Thrown e =>
      fst (processDevice host bridge d s) = Thrown e /\
      accessories (snd (processDevice host bridge d s)) = accessories s /\
      calls (snd (processDevice host bridge d s)) =
        (calls s ++
         [new_platformAccessory (fullName_of d) (uuid_of host d);
          bridgeMgr_getBridge (sb_bridgeID bridge);
          new_OccupancySensor (handle_of host bridge d) (sb_bridgeID bridge);
          sensor_initialize (with_services (handle_of host bridge d)
                               (OccupancySensor host (handle_of host bridge d)))])%list
  | Returned sv =>
      fst (processDevice host bridge d s) = Returned tt /\
      calls (snd (processDevice host bridge d s)) =
        (calls s ++
         [new_platformAccessory (fullName_of d) (uuid_of host d);
          bridgeMgr_getBridge (sb_bridgeID bridge);
          new_OccupancySensor (handle_of host bridge d) (sb_bridgeID bridge);
          sensor_initialize (with_services (handle_of host bridge d)
                               (OccupancySensor host (handle_of host bridge d)));
          registerPlatformAccessories (PLUGIN_NAME host) (PLATFORM_NAME host)
            [with_services (handle_of host bridge d) sv]])%list
  end.
Proof.
  intros Hsensor Hnone. destruct (sensor_cases _ Hsensor) as (Hb & Hp).
  pd_cases; try congruence; simplify_eq;
    repeat split; rewrite <- ?app_assoc; cbn [app]; reflexivity.
Qed.

(** [processDevice] touches no entry of the index but the one of the
    device's identity; and an entry it makes there carries the device's
    qualified name, its identity, and the context of the bridge and the
    device record. *)
Theorem processDevice_entry bridge d s :
  (forall k, k <> uuid_of host d ->
     accessories (snd (processDevice host bridge d s)) !! k = accessories s !! k) /\
  (forall a,
     accessories s !! uuid_of host d = None ->
     accessories (snd (processDevice host bridge d s)) !! uuid_of host d = Some a ->
     displayName a = fullName_of d /\ UUID a = uuid_of host d /\
     context a = {| device := d; bridgeID := sb_bridgeID bridge |}).
Proof.
  destruct (processDevice_index bridge d s) as [Heq | (_ & Hnone & sv & Heq)];
    rewrite Heq; split.
  - reflexivity.
  - intros a Hnone Hsome. congruence.
  - intros k Hk. apply lookup_insert_ne. congruence.
  - intros a _. rewrite lookup_insert_eq. intros [= <-]. repeat split.
Qed.

(** The calls of [processDevice]: calls on the accessory factory, the
    handlers, the bridge manager's lookup and the registry only, with at
    most one registration, of a single accessory. *)
Lemma processDevice_calls bridge d s :
  exists cs,
    calls (snd (processDevice host bridge d s)) = (calls s ++ cs)%list /\
    forallb device_call cs = true /\
    length (List.filter is_registration cs) <= 1 /\
    Forall (fun c => match c with
                     | registerPlatformAccessories _ _ l => length l = 1
                     | _ => True
                     end) cs.
Proof.
  pd_cases; (eexists; split; [extends |]); cbn; repeat split; auto; repeat constructor.
Qed.

(** *** More on a pass over an inventory *)

Lemma untouched_refl s : untouched s s.
Proof. repeat split. Qed.

Lemma untouched_trans s1 s2 s3 : untouched s1 s2 -> untouched s2 s3 -> untouched s1 s3.
Proof.
  unfold untouched. intros (?&?&?&?&?&?&?&?) (?&?&?&?&?&?&?&?).
  repeat split; congruence.
Qed.

Lemma processAllDevices_one_untouched bridge d s :
  untouched s (snd (processAllDevices_one host bridge d s)).
Proof.
  rewrite processAllDevices_one_eq. pose proof (processDevice_frame bridge d s) as H.
  destruct (processDevice host bridge d s) as [[[] | e] s']; exact H.
Qed.

Lemma processAllDevices_loop_untouched bridge devices s :
  untouched s (snd (processAllDevices_loop host bridge devices s)).
Proof.
  revert s. induction devices as [| d rest IH]; intros s; [apply untouched_refl |].
  rewrite processAllDevices_loop_cons.
  eapply untouched_trans; [apply processAllDevices_one_untouched | apply IH].
Qed.

Lemma processAllDevices_one_calls bridge d s :
  calls (snd (processAllDevices_one host bridge d s)) =
    calls (snd (processDevice host bridge d s)).
Proof.
  rewrite processAllDevices_one_eq.
  destruct (processDevice host bridge d s) as [[[] | e] s']; reflexivity.
Qed.

Lemma processAllDevices_loop_calls bridge devices s :
  exists cs,
    calls (snd (processAllDevices_loop host bridge devices s)) = (calls s ++ cs)%list /\
    forallb device_call cs = true /\
    length (List.filter is_registration cs) <= length devices /\
    Forall (fun c => match c with
                     | registerPlatformAccessories _ _ l => length l = 1
                     | _ => True
                     end) cs.
Proof.
  revert s. induction devices as [| d rest IH]; intros s.
  - exists []. cbn. rewrite app_nil_r. repeat split; auto.
  - rewrite processAllDevices_loop_cons.
    destruct (IH (snd (processAllDevices_one host bridge d s)))
      as (cs2 & Hcalls2 & Hdev2 & Hreg2 & Hone2).
    destruct (processDevice_calls bridge d s) as (cs1 & Hcalls1 & Hdev1 & Hreg1 & Hone1).
    exists (cs1 ++ cs2)%list.
    rewrite Hcalls2, processAllDevices_one_calls, Hcalls1, <- app_assoc.
    split; [reflexivity |]. split; [rewrite forallb_app, Hdev1, Hdev2; reflexivity |].
    split; [rewrite List.filter_app, length_app; cbn; lia |].
    apply Forall_app. split; assumption.
Qed.

(** *** Failure isolation *)

(** The per-type stage of [processDevice] on a device the platform sets
    up: it ends in [break] with the prepared accessory, in the prepared
    world, and leaves the index as it was. *)
Lemma processDevice_setup_prepared bridge d s a w :
  prepared host bridge d s = Some (a, w) ->
  exists s1 cs,
    processDevice_setup host bridge d (fullName_of d) (uuid_of host d) s
      = (Returned (Break a), s1) /\
    world s1 = w /\ accessories s1 = accessories s /\
    calls s1 = (calls s ++ cs)%list.
Proof.
  assert (Hbreak : forall (flow : Completion Flow) s1 cs,
             flow = Returned (Break a) -> world s1 = w ->
             accessories s1 = accessories s -> calls s1 = (calls s ++ cs)%list ->
             exists s1' cs',
               (flow, s1) = (Returned (Break a), s1') /\
               world s1' = w /\ accessories s1' = accessories s /\
               calls s1' = (calls s ++ cs')%list).
  { intros flow s1 cs -> Hw Ha Hc. exists s1, cs. repeat split; assumption. }
  unfold prepared, processDevice_setup, processDevice_switch, handle_of.
  unfold log_at, tell, bind, ret, gets, modify, ask.
  destruct (case_of blind_types (DeviceType d)).
  { cbn. destruct (filterBlinds (options s)); [discriminate |].
    intros [= <- <-]. eapply Hbreak; cbn; try reflexivity.
    rewrite <- ?app_assoc. reflexivity. }
  destruct (case_of pico_types (DeviceType d)).
  { intros [= <- <-]. eapply Hbreak; cbn; try reflexivity.
    rewrite <- ?app_assoc. reflexivity. }
  destruct (case_of sensor_types (DeviceType d)); [| discriminate].
  cbn.
  destruct (initialize host (world s) _) as [w1 [sv | e]]; [| discriminate].
  intros [= <- <-]. eapply Hbreak; cbn; try reflexivity.
  rewrite <- ?app_assoc. reflexivity.
Qed.

(** An eligible device is set up, registered and inserted: [processDevice]
    returns, the registration of its accessory is the last call, and the
    index gains the accessory under the device's identity. *)
Lemma processDevice_eligible bridge d s a :
  eligible host bridge d s a ->
  fst (processDevice host bridge d s) = Returned tt /\
  (exists cs,
     calls (snd (processDevice host bridge d s)) =
       (calls s ++ cs ++ [registerPlatformAccessories (PLUGIN_NAME host)
                            (PLATFORM_NAME host) [a]])%list) /\
  accessories (snd (processDevice host bridge d s)) =
    <[uuid_of host d := a]> (accessories s).
Proof.
  intros (Hnone & Hprep).
  destruct (prepared host bridge d s) as [[a' w] |] eqn:Hp; [| destruct Hprep].
  destruct Hprep as [-> Hreg].
  destruct (processDevice_setup_prepared bridge d s a w Hp)
    as (s1 & cs & Hsetup & Hworld & Hacc & Hcalls).
  rewrite processDevice_stages, Hnone, Hsetup.
  unfold processDevice_register, bind, attempt, ask, tell, modify, log_at.
  cbn. rewrite Hworld.
  destruct (register host w [a]) as [w2 [[] | e]]; [| discriminate].
  cbn. rewrite Hacc, Hcalls, <- app_assoc. repeat split. exists cs. reflexivity.
Qed.

Lemma processAllDevices_loop_calls_kept bridge devices s c :
  In c (calls s) -> In c (calls (snd (processAllDevices_loop host bridge devices s))).
Proof.
  intros Hin. destruct (processAllDevices_loop_calls bridge devices s) as (cs & -> & _).
  apply in_or_app. left. exact Hin.
Qed.

(** C6: per-device failure isolation.  When [processDevice] throws on a
    device of the inventory, the loop itself returns; the devices before it
    have been processed, the failure is logged with the device's qualified
    name, and the loop goes on with the devices after it, in order; the
    failed call has added nothing to the index, which does not hold the
    failed device's identity; every device of the inventory that is
    eligible at its turn (so any but the failed one) is registered and is
    in the index, with its accessory, when the loop ends; and every device
    of the inventory that is in the index once its own turn is over is in
    the index, with the same accessory, when the loop ends. *)
Theorem per_device_failure_isolation bridge before d after s e sk :
  processDevice host bridge d (snd (processAllDevices_loop host bridge before s))
    = (Thrown e, sk) ->
  fst (processAllDevices_loop host bridge (before ++ d :: after) s) = Returned tt /\
  processAllDevices_loop host bridge (before ++ d :: after) s =
    processAllDevices_loop host bridge after
      (set_log (fun l => l ++ [{| level := error;
                                  message := "Failed to process device "
                                             +:+ fullName_of d |}])%list sk) /\
  accessories sk = accessories (snd (processAllDevices_loop host bridge before s)) /\
  accessories sk !! uuid_of host d = None /\
  (forall l1 d' l2 a,
     (before ++ d :: after)%list = (l1 ++ d' :: l2)%list ->
     eligible host bridge d' (snd (processAllDevices_loop host bridge l1 s)) a ->
     fst (processDevice host bridge d' (snd (processAllDevices_loop host bridge l1 s)))
       = Returned tt /\
     In (registerPlatformAccessories (PLUGIN_NAME host) (PLATFORM_NAME host) [a])
        (calls (snd (processAllDevices_loop host bridge (before ++ d :: after) s))) /\
     accessories (snd (processAllDevices_loop host bridge (before ++ d :: after) s))
       !! uuid_of host d' = Some a) /\
  (forall l1 d' l2 a,
     (before ++ d :: after)%list = (l1 ++ d' :: l2)%list ->
     accessories (snd (processDevice host bridge d'
                         (snd (processAllDevices_loop host bridge l1 s))))
       !! uuid_of host d' = Some a ->
     accessories (snd (processAllDevices_loop host bridge (before ++ d :: after) s))
       !! uuid_of host d' = Some a).
Proof.
  intros Hthrow. split; [apply processAllDevices_loop_returns |].
  assert (Hsame : accessories sk
                  = accessories (snd (processAllDevices_loop host bridge before s))).
  { destruct (processDevice_index bridge d
                (snd (processAllDevices_loop host bridge before s)))
      as [Heq | (Hret & _)]; rewrite Hthrow in *; [exact Heq | discriminate]. }
  split; [| split; [exact Hsame | split; [| split]]].
  - rewrite processAllDevices_loop_app, processAllDevices_loop_cons,
      processAllDevices_one_eq, Hthrow. reflexivity.
  - rewrite Hsame.
    destruct (accessories (snd (processAllDevices_loop host bridge before s))
                !! uuid_of host d) as [known |] eqn:Hlook; [| reflexivity].
    rewrite (processDevice_known bridge d _ known Hlook) in Hthrow. discriminate.
  - intros l1 d' l2 a -> Hel.
    destruct (processDevice_eligible bridge d' _ a Hel) as (Hret & (cs & Hcalls) & Hacc).
    split; [exact Hret |].
    rewrite processAllDevices_loop_app, processAllDevices_loop_cons. split.
    + apply processAllDevices_loop_calls_kept.
      rewrite processAllDevices_one_calls, Hcalls, !in_app_iff. right. right. left.
      reflexivity.
    + eapply lookup_weaken; [| apply processAllDevices_loop_index_mono].
      rewrite processAllDevices_one_accessories, Hacc. apply lookup_insert_eq.
  - intros l1 d' l2 a -> Hin.
    rewrite processAllDevices_loop_app, processAllDevices_loop_cons.
    eapply lookup_weaken; [| apply processAllDevices_loop_index_mono].
    rewrite processAllDevices_one_accessories. exact Hin.
Qed.

(** A pass logs at most one error line for each device of the inventory. *)
Theorem pass_logs_at_most_one_error_per_device bridge devices s :
  errors s <= errors (snd (processAllDevices_loop host bridge devices s))
  <= errors s + length devices.
Proof.
  revert s. induction devices as [| d rest IH]; intros s; [cbn; lia |].
  rewrite processAllDevices_loop_cons.
  specialize (IH (snd (processAllDevices_one host bridge d s))).
  destruct (processAllDevices_one_outcome bridge d s) as [[Hone _] | Hone];
    rewrite Hone in IH; cbn [length]; lia.
Qed.

(** [processAllDevices], by the answer to the inventory request. *)
Lemma processAllDevices_eq bridge s :
  processAllDevices host bridge s =
    match getDeviceInfo host (world s) bridge with
    | (w, Returned devices) =>
        (Returned tt,
         snd (processAllDevices_loop host bridge devices (inventory_requested bridge w s)))
    | (w, Thrown e) =>
        (Returned tt,
         set_log (fun l => l ++ [{| level := error;
                                    message := "Failed to process devices on new bridge "
                                               +:+ sb_bridgeID bridge +:+ ": " +:+ e |}])%list
           (inventory_requested bridge w s))
    end.
Proof.
  unfold processAllDevices, inventory_requested.
  unfold bind at 1. unfold attempt at 1. unfold ask at 1.
  destruct (getDeviceInfo host (world s) bridge) as [w [devices | e]].
  - unfold bind at 1. unfold tell at 1, modify at 1. unfold bind, attempt.
    pose proof (processAllDevices_loop_returns bridge devices
                  (set_calls (fun l => l ++ [bridge_on_unsolicited bridge])%list
                     (set_world w
                        (set_calls (fun l => l ++ [bridge_getDeviceInfo bridge])%list s))))
      as Hret.
    destruct (processAllDevices_loop host bridge devices _) as [[[] | e] s'];
      [reflexivity | discriminate].
  - unfold_M. reflexivity.
Qed.

Lemma processAllDevices_effects bridge s :
  fst (processAllDevices host bridge s) = Returned tt /\
  untouched s (snd (processAllDevices host bridge s)) /\
  accessories s ⊆ accessories (snd (processAllDevices host bridge s)) /\
  exists cs,
    calls (snd (processAllDevices host bridge s)) =
      (calls s ++ bridge_getDeviceInfo bridge :: bridge_on_unsolicited bridge :: cs)%list /\
    forallb device_call cs = true /\
    length (List.filter is_registration cs)
      <= match snd (getDeviceInfo host (world s) bridge) with
         | Returned devices => length devices
         | Thrown _ => 0
         end /\
    Forall (fun c => match c with
                     | registerPlatformAccessories _ _ l => length l = 1
                     | _ => True
                     end) cs.
Proof.
  rewrite processAllDevices_eq.
  destruct (getDeviceInfo host (world s) bridge) as [w [devices | e]]; cbn [fst snd].
  - split; [reflexivity |]. split; [| split].
    + eapply untouched_trans; [| apply processAllDevices_loop_untouched]. repeat split.
    + etrans; [| apply processAllDevices_loop_index_mono]. done.
    + destruct (processAllDevices_loop_calls bridge devices (inventory_requested bridge w s))
        as (cs & Hcalls & Hdev & Hreg & Hone).
      exists cs. rewrite Hcalls. cbn. rewrite <- !app_assoc. repeat split; assumption.
  - split; [reflexivity |]. split; [repeat split |]. split; [done |].
    exists []. cbn. rewrite <- !app_assoc. repeat split; auto.
Qed.

(** A reconciliation pass never throws, whatever the bridge answers and
    whatever happens to single devices; it leaves everything but the index,
    the log, the calls and the world as it was; and it keeps every entry of
    the index as it was. *)
Theorem processAllDevices_returns bridge s :
  fst (processAllDevices host bridge s) = Returned tt /\
  untouched s (snd (processAllDevices host bridge s)) /\
  accessories s ⊆ accessories (snd (processAllDevices host bridge s)).
Proof.
  destruct (processAllDevices_effects bridge s) as (Hret & Hsame & Hsub & _).
  split; [exact Hret |]. split; [exact Hsame | exact Hsub].
Qed.

(** A pass asks the bridge for its inventory, attaches its listener, and
    then calls nothing but the accessory factory, the handlers, the bridge
    manager's lookup and the registration; it registers at most once per
    device of the inventory (never, when the request is rejected), one
    accessory at a time. *)
Theorem pass_registers_at_most_once_per_device bridge s :
  exists cs,
    calls (snd (processAllDevices host bridge s)) =
      (calls s ++ bridge_getDeviceInfo bridge :: bridge_on_unsolicited bridge :: cs)%list /\
    forallb device_call cs = true /\
    length (List.filter is_registration cs)
      <= match snd (getDeviceInfo host (world s) bridge) with
         | Returned devices => length devices
         | Thrown _ => 0
         end /\
    Forall (fun c => match c with
                     | registerPlatformAccessories _ _ l => length l = 1
                     | _ => True
                     end) cs.
Proof. apply processAllDevices_effects. Qed.

(** When the inventory request is rejected, the pass ends there: the error
    is logged with the bridge's identity, no device is processed (nothing is
    called after the listener has been attached), and the index is as it
    was. *)
Theorem processAllDevices_inventory_failure bridge s e :
  snd (getDeviceInfo host (world s) bridge) = Thrown e ->
  accessories (snd (processAllDevices host bridge s)) = accessories s /\
  calls (snd (processAllDevices host bridge s)) =
    (calls s ++ [bridge_getDeviceInfo bridge; bridge_on_unsolicited bridge])%list /\
  log (snd (processAllDevices host bridge s)) =
    (log s ++ [{| level := error;
                  message := "Failed to process devices on new bridge "
                             +:+ sb_bridgeID bridge +:+ ": " +:+ e |}])%list.
Proof.
  intros Hrejected. rewrite processAllDevices_eq.
  destruct (getDeviceInfo host (world s) bridge) as [w [devices | e']];
    cbn in Hrejected; [discriminate |]. injection Hrejected as ->.
  cbn. rewrite <- app_assoc. repeat split.
Qed.

(** *** More on discovery *)

(** [handleBridgeDiscovery], by the registry and the credential store. *)
Lemma handleBridgeDiscovery_eq bridgeInfo s :
  handleBridgeDiscovery host bridgeInfo s =
    match bridgeMgr s !! toLowerCase (net_bridgeid bridgeInfo) with
    | Some _ =>
        (Returned tt,
         set_log (fun l => l ++ [{| level := info;
                                    message := "Bridge " +:+ net_bridgeid bridgeInfo
                                               +:+ " already known, closing." |}])%list s)
    | None =>
        match secrets s !! toLowerCase (net_bridgeid bridgeInfo) with
        | Some these =>
            processAllDevices host (connection host bridgeInfo these)
              (set_bridgeMgr (insert (toLowerCase (net_bridgeid bridgeInfo))
                                (connection host bridgeInfo these))
                 (set_calls (fun l => l ++ [bridgeMgr_addBridge
                                              (connection host bridgeInfo these)])%list
                    (set_log (fun l => l ++ [{| level := debug;
                                                message := "bridge " +:+ net_bridgeid bridgeInfo
                                                           +:+ " has secrets "
                                                           +:+ stringify host these |}])%list
                       s)))
        | None =>
            (Thrown ("Error: no credentials for bridge ID " +:+ net_bridgeid bridgeInfo), s)
        end
    end.
Proof.
  unfold handleBridgeDiscovery, hasBridge, addBridge, connection.
  unfold bind at 1. unfold bind at 1. unfold gets at 1. unfold ret at 1.
  destruct (bridgeMgr s !! toLowerCase (net_bridgeid bridgeInfo)) as [b |] eqn:Hmgr.
  - rewrite bool_decide_eq_true_2 by (eexists; reflexivity). reflexivity.
  - rewrite bool_decide_eq_false_2 by (intros [? [=]]).
    unfold bind at 1. unfold gets at 1.
    destruct (secrets s !! toLowerCase (net_bridgeid bridgeInfo)) as [these |];
      [| reflexivity].
    unfold_M. reflexivity.
Qed.

(** A discovered bridge that the registry does not hold and whose
    lower-cased identity has stored credentials is connected:
    [handleBridgeDiscovery] returns, the registry gains the connection built
    from the discovered address, the LEAP port and the stored credentials,
    under the lower-cased identity, and nothing else; one more listener is
    attached to that connection; no entry of the index is lost. *)
Theorem handleBridgeDiscovery_connects bridgeInfo these s :
  bridgeMgr s !! toLowerCase (net_bridgeid bridgeInfo) = None ->
  secrets s !! toLowerCase (net_bridgeid bridgeInfo) = Some these ->
  fst (handleBridgeDiscovery host bridgeInfo s) = Returned tt /\
  bridgeMgr (snd (handleBridgeDiscovery host bridgeInfo s)) =
    <[toLowerCase (net_bridgeid bridgeInfo) := connection host bridgeInfo these]>
      (bridgeMgr s) /\
  unsolicited_listeners (connection host bridgeInfo these)
    (snd (handleBridgeDiscovery host bridgeInfo s))
    = S (unsolicited_listeners (connection host bridgeInfo these) s) /\
  accessories s ⊆ accessories (snd (handleBridgeDiscovery host bridgeInfo s)).
Proof.
  intros Hmgr Hsec. rewrite handleBridgeDiscovery_eq, Hmgr, Hsec.
  match goal with
  | |- context [processAllDevices host ?b ?st] =>
      destruct (processAllDevices_effects b st) as (Hret & Hsame & Hsub & _);
      pose proof (processAllDevices_attaches_listener b st) as Hlisten
  end.
  destruct Hsame as (_ & _ & Hsame & _).
  split; [exact Hret |]. split; [rewrite Hsame; reflexivity |].
  split; [| exact Hsub].
  rewrite Hlisten. f_equal. unfold unsolicited_listeners. cbn.
  rewrite List.filter_app, length_app. cbn. lia.
Qed.

(** Once a bridge with stored credentials has been discovered, every later
    discovery of it, under an identity that differs at most in case, is
    ignored: one informational line, and nothing else changes. *)
Theorem rediscovery_ignored bridgeInfo again these s :
  secrets s !! toLowerCase (net_bridgeid bridgeInfo) = Some these ->
  toLowerCase (net_bridgeid again) = toLowerCase (net_bridgeid bridgeInfo) ->
  handleBridgeDiscovery host again (snd (handleBridgeDiscovery host bridgeInfo s)) =
    (Returned tt,
     set_log (fun l => l ++ [{| level := info;
                                message := "Bridge " +:+ net_bridgeid again
                                           +:+ " already known, closing." |}])%list
       (snd (handleBridgeDiscovery host bridgeInfo s))).
Proof.
  intros Hsec Hsame.
  assert (Hknown : is_Some (bridgeMgr (snd (handleBridgeDiscovery host bridgeInfo s))
                              !! toLowerCase (net_bridgeid bridgeInfo))).
  { rewrite handleBridgeDiscovery_eq, Hsec.
    destruct (bridgeMgr s !! toLowerCase (net_bridgeid bridgeInfo)) as [b |] eqn:Hmgr.
    - exists b. exact Hmgr.
    - match goal with
      | |- context [processAllDevices host ?b ?st] =>
          destruct (processAllDevices_effects b st) as (_ & (_ & _ & Hreg & _) & _)
      end.
      rewrite Hreg. cbn. rewrite lookup_insert_eq. eexists; reflexivity. }
  destruct Hknown as [b Hb].
  rewrite (handleBridgeDiscovery_eq again), Hsame, Hb. reflexivity.
Qed.

(** *** More on restoring *)

Lemma configureAccessory_effects accessory s :
  untouched s (snd (configureAccessory host accessory s)) /\
  (exists cs,
     calls (snd (configureAccessory host accessory s)) = (calls s ++ cs)%list /\
     forallb restore_call cs = true) /\
  (accessories (snd (configureAccessory host accessory s)) = accessories s \/
   exists sv,
     accessories (snd (configureAccessory host accessory s)) =
       <[UUID accessory := with_services accessory sv]> (accessories s)).
Proof.
  destruct accessory as [name uuid ctx sv0].
  unfold configureAccessory, configureAccessory_switch. unfold_M.
  branch; (split; [repeat split |]);
    (split; [eexists; split; [extends | reflexivity] |]);
    first [ left; reflexivity | right; eexists; reflexivity ].
Qed.

(** Restoring a cached accessory only wires it: [configureAccessory] calls
    nothing but the bridge manager's lookup, a handler constructor and the
    sensor's initialisation (no accessory is made, none is registered, no
    bridge is asked for anything), and it leaves everything but the index,
    the log, the calls and the world as it was. *)
Theorem configureAccessory_only_wires accessory s :
  untouched s (snd (configureAccessory host accessory s)) /\
  exists cs,
    calls (snd (configureAccessory host accessory s)) = (calls s ++ cs)%list /\
    forallb restore_call cs = true.
Proof.
  destruct (configureAccessory_effects accessory s) as (Hsame & Hcalls & _).
  split; assumption.
Qed.

(** *** More on unsolicited notifications *)

Lemma handleUnsolicitedMessage_effects bridgeID response s :
  options (snd (handleUnsolicitedMessage host bridgeID response s)) = options s /\
  secrets (snd (handleUnsolicitedMessage host bridgeID response s)) = secrets s /\
  maxListeners (snd (handleUnsolicitedMessage host bridgeID response s)) = maxListeners s /\
  launchCallbacks (snd (handleUnsolicitedMessage host bridgeID response s))
    = launchCallbacks s /\
  finder (snd (handleUnsolicitedMessage host bridgeID response s)) = finder s /\
  accessories (snd (handleUnsolicitedMessage host bridgeID response s)) = accessories s /\
  bridgeMgr (snd (handleUnsolicitedMessage host bridgeID response s)) = bridgeMgr s /\
  (timers (snd (handleUnsolicitedMessage host bridgeID response s)) = timers s \/
   exists bridge,
     timers (snd (handleUnsolicitedMessage host bridgeID response s)) =
       (timers s ++ [{| timer_ms := 30000; timer_bridge := bridge |}])%list) /\
  (calls (snd (handleUnsolicitedMessage host bridgeID response s)) = calls s \/
   calls (snd (handleUnsolicitedMessage host bridgeID response s)) =
     (calls s ++ [bridgeMgr_getBridge bridgeID])%list).
Proof.
  unfold handleUnsolicitedMessage, getBridge, setTimeout, emit_unsolicited. unfold_M.
  branch; repeat split; auto; try (right; eexists; reflexivity); try (left; reflexivity).
Qed.

(** *** Every run of the platform *)

Lemma lower_ascii_idempotent c : lower_ascii (lower_ascii c) = lower_ascii c.
Proof. destruct c as [[] [] [] [] [] [] [] []]; reflexivity. Qed.

Lemma toLowerCase_idempotent str : toLowerCase (toLowerCase str) = toLowerCase str.
Proof.
  induction str as [| c r IH]; [reflexivity |].
  cbn. rewrite lower_ascii_idempotent, IH. reflexivity.
Qed.

Lemma listeners_run_preserves (P : @State W -> Prop) m n s :
  (forall st, P st -> P (snd (m st))) -> P s -> P (snd (listeners_run n m s)).
Proof.
  intros Hm. revert s. induction n as [| n IH]; intros s Hs; [exact Hs |].
  cbn [listeners_run]. unfold bind. specialize (Hm s Hs).
  destruct (m s) as [[[] | e] s1]; cbn in *; [apply IH, Hm | exact Hm].
Qed.

Lemma evolves_refl s : evolves s s.
Proof. repeat split; done. Qed.

Lemma evolves_trans s1 s2 s3 : evolves s1 s2 -> evolves s2 s3 -> evolves s1 s3.
Proof.
  unfold evolves. intros (?&?&?&?&?&?) (?&?&?&?&?&?).
  repeat split; try congruence; etrans; eassumption.
Qed.

Lemma untouched_evolves s s' :
  untouched s s' -> dom (accessories s) ⊆ dom (accessories s') -> evolves s s'.
Proof.
  intros (Ho & Hs & Hb & _ & _ & _ & Hl & Hm) Hdom.
  repeat split; try assumption. rewrite Hb. done.
Qed.

Lemma processAllDevices_evolves bridge s :
  evolves s (snd (processAllDevices host bridge s)).
Proof.
  destruct (processAllDevices_effects bridge s) as (_ & Hsame & Hsub & _).
  apply untouched_evolves; [exact Hsame |]. apply subseteq_dom, Hsub.
Qed.

Lemma configureAccessory_evolves accessory s :
  evolves s (snd (configureAccessory host accessory s)).
Proof.
  destruct (configureAccessory_effects accessory s) as (Hsame & _ & Hacc).
  apply untouched_evolves; [exact Hsame |].
  destruct Hacc as [-> | [sv ->]]; [done |].
  rewrite dom_insert_L. set_solver.
Qed.

Lemma handleBridgeDiscovery_evolves bridgeInfo s :
  evolves s (snd (handleBridgeDiscovery host bridgeInfo s)).
Proof.
  rewrite handleBridgeDiscovery_eq.
  destruct (bridgeMgr s !! toLowerCase (net_bridgeid bridgeInfo)) as [b |] eqn:Hmgr;
    [repeat split; done |].
  destruct (secrets s !! toLowerCase (net_bridgeid bridgeInfo)) as [these |];
    [| apply evolves_refl].
  eapply evolves_trans; [| apply processAllDevices_evolves].
  repeat split; try done. cbn. apply insert_subseteq, Hmgr.
Qed.

Lemma handleUnsolicitedMessage_evolves bridgeID response s :
  evolves s (snd (handleUnsolicitedMessage host bridgeID response s)).
Proof.
  destruct (handleUnsolicitedMessage_effects bridgeID response s)
    as (Ho & Hs & Hm & Hl & _ & Ha & Hb & _).
  repeat split; try assumption; [rewrite Ha | rewrite Hb]; done.
Qed.

Lemma step_evolves s ev : evolves s (step host s ev).
Proof.
  unfold step. destruct ev as [| accessory | bridgeInfo | e | bridge response | i];
    cbn [deliver].
  - unfold bind at 1, gets at 1. cbv beta iota.
    apply (listeners_run_preserves (evolves s)); [| apply evolves_refl].
    intros st Hst. eapply evolves_trans; [exact Hst |]. repeat split; done.
  - apply configureAccessory_evolves.
  - unfold bind at 1, gets at 1. cbv beta iota.
    destruct (finder s); [| apply evolves_refl].
    apply (listeners_run_preserves (evolves s)); [| apply evolves_refl].
    intros st Hst. eapply evolves_trans; [exact Hst | apply handleBridgeDiscovery_evolves].
  - unfold bind at 1, gets at 1. cbv beta iota.
    destruct (finder s); [| apply evolves_refl].
    apply (listeners_run_preserves (evolves s)); [| apply evolves_refl].
    intros st Hst. eapply evolves_trans; [exact Hst |]. repeat split; done.
  - unfold bind at 1, gets at 1. cbv beta iota.
    apply (listeners_run_preserves (evolves s)); [| apply evolves_refl].
    intros st Hst. eapply evolves_trans; [exact Hst | apply handleUnsolicitedMessage_evolves].
  - unfold bind at 1, gets at 1. cbv beta iota.
    destruct (timers s !! i) as [t |]; [| apply evolves_refl].
    unfold bind, modify.
    eapply evolves_trans; [| apply processAllDevices_evolves]. repeat split; done.
Qed.

Lemma run_evolves_aux s evs : evolves s (run host s evs).
Proof.
  revert s. induction evs as [| ev evs IH]; intros s; [apply evolves_refl |].
  cbn. eapply evolves_trans; [apply step_evolves | apply IH].
Qed.

Lemma keyed_same s s' : accessories s' = accessories s -> keyed s -> keyed s'.
Proof. unfold keyed. intros ->. auto. Qed.

Lemma keyed_insert s s' a :
  accessories s' = <[UUID a := a]> (accessories s) -> keyed s -> keyed s'.
Proof.
  unfold keyed. intros -> Hs k a' Hlook.
  rewrite lookup_insert in Hlook. case_decide; [congruence | auto].
Qed.

Lemma processDevice_keyed bridge d s : keyed s -> keyed (snd (processDevice host bridge d s)).
Proof.
  intros Hs. destruct (processDevice_index bridge d s) as [Heq | (_ & _ & sv & Heq)].
  - exact (keyed_same _ _ Heq Hs).
  - exact (keyed_insert _ _ (with_services (handle_of host bridge d) sv) Heq Hs).
Qed.

Lemma processAllDevices_loop_keyed bridge devices s :
  keyed s -> keyed (snd (processAllDevices_loop host bridge devices s)).
Proof.
  revert s. induction devices as [| d rest IH]; intros s Hs; [exact Hs |].
  rewrite processAllDevices_loop_cons. apply IH.
  eapply keyed_same; [apply processAllDevices_one_accessories |].
  apply processDevice_keyed, Hs.
Qed.

Lemma processAllDevices_keyed bridge s :
  keyed s -> keyed (snd (processAllDevices host bridge s)).
Proof.
  intros Hs. rewrite processAllDevices_eq.
  destruct (getDeviceInfo host (world s) bridge) as [w [devices | e]]; cbn [snd].
  - apply processAllDevices_loop_keyed. exact Hs.
  - exact Hs.
Qed.

Lemma sound_untouched s s' : untouched s s' -> keyed s' -> sound host s -> sound host s'.
Proof.
  intros (_ & Hsec & Hmgr & _ & Htimers & _) Hkeyed (_ & Hconn & Hdelay).
  split; [exact Hkeyed |]. split; [| rewrite Htimers; exact Hdelay].
  unfold connected_with_credentials. rewrite Hsec, Hmgr. exact Hconn.
Qed.

Lemma processAllDevices_sound bridge s :
  sound host s -> sound host (snd (processAllDevices host bridge s)).
Proof.
  intros Hs. destruct (processAllDevices_effects bridge s) as (_ & Hsame & _).
  apply (sound_untouched _ _ Hsame); [| exact Hs].
  apply processAllDevices_keyed, Hs.
Qed.

Lemma configureAccessory_sound accessory s :
  sound host s -> sound host (snd (configureAccessory host accessory s)).
Proof.
  intros Hs. destruct (configureAccessory_effects accessory s) as (Hsame & _ & Hacc).
  apply (sound_untouched _ _ Hsame); [| exact Hs].
  destruct Hacc as [Heq | [sv Heq]].
  - exact (keyed_same _ _ Heq (proj1 Hs)).
  - exact (keyed_insert _ _ (with_services accessory sv) Heq (proj1 Hs)).
Qed.

Lemma handleUnsolicitedMessage_sound bridgeID response s :
  sound host s -> sound host (snd (handleUnsolicitedMessage host bridgeID response s)).
Proof.
  intros (Hkeyed & Hconn & Hdelay).
  destruct (handleUnsolicitedMessage_effects bridgeID response s)
    as (_ & Hs & _ & _ & _ & Ha & Hb & Ht & _).
  split; [exact (keyed_same _ _ Ha Hkeyed) |]. split.
  - unfold connected_with_credentials. rewrite Hs, Hb. exact Hconn.
  - destruct Ht as [-> | [bridge ->]]; [exact Hdelay |].
    apply Forall_app. split; [exact Hdelay | repeat constructor].
Qed.

Lemma handleBridgeDiscovery_sound bridgeInfo s :
  sound host s -> sound host (snd (handleBridgeDiscovery host bridgeInfo s)).
Proof.
  intros Hs. rewrite handleBridgeDiscovery_eq.
  destruct (bridgeMgr s !! toLowerCase (net_bridgeid bridgeInfo)) as [b |] eqn:Hmgr;
    [exact Hs |].
  destruct (secrets s !! toLowerCase (net_bridgeid bridgeInfo)) as [these |] eqn:Hsec;
    [| exact Hs].
  apply processAllDevices_sound. destruct Hs as (Hkeyed & Hconn & Hdelay).
  split; [exact Hkeyed |]. split; [| exact Hdelay].
  intros k b. cbn. rewrite lookup_insert. case_decide as Hk.
  - intros [= <-]. subst k. split; [reflexivity |].
    split; [apply toLowerCase_idempotent |].
    exists these. repeat split. exact Hsec.
  - apply Hconn.
Qed.

Lemma step_sound s ev : sound host s -> sound host (step host s ev).
Proof.
  intros Hs. unfold step.
  destruct ev as [| accessory | bridgeInfo | e | bridge response | i]; cbn [deliver].
  - unfold bind at 1, gets at 1. cbv beta iota.
    apply (listeners_run_preserves (sound host)); [| exact Hs]. intros st Hst. exact Hst.
  - apply configureAccessory_sound, Hs.
  - unfold bind at 1, gets at 1. cbv beta iota. destruct (finder s); [| exact Hs].
    apply (listeners_run_preserves (sound host)); [| exact Hs].
    intros st Hst. apply handleBridgeDiscovery_sound, Hst.
  - unfold bind at 1, gets at 1. cbv beta iota. destruct (finder s); [| exact Hs].
    apply (listeners_run_preserves (sound host)); [| exact Hs]. intros st Hst. exact Hst.
  - unfold bind at 1, gets at 1. cbv beta iota.
    apply (listeners_run_preserves (sound host)); [| exact Hs].
    intros st Hst. apply handleUnsolicitedMessage_sound, Hst.
  - unfold bind at 1, gets at 1. cbv beta iota.
    destruct (timers s !! i) as [t |]; [| exact Hs].
    unfold bind, modify. apply processAllDevices_sound.
    destruct Hs as (Hkeyed & Hconn & Hdelay).
    split; [exact Hkeyed |]. split; [exact Hconn |]. cbn.
    apply Forall_app. split; [apply Forall_take | apply Forall_drop]; exact Hdelay.
Qed.

Lemma run_sound s evs : sound host s -> sound host (run host s evs).
Proof.
  revert s. induction evs as [| ev evs IH]; intros s Hs; [exact Hs |].
  cbn. apply IH, step_sound, Hs.
Qed.

Lemma constructor_state config (w : W) :
  constructor config w =
    if (size (secretsFromConfig config) =? 0)%nat then
      set_log (fun l => l ++ [{| level := warn;
                                 message := "No bridge auth configured. Retiring." |}])%list
        (set_calls (fun l => l ++ [process_on "warning"])%list
           (set_log (fun l => l ++ [{| level := info;
                                       message := "LutronCasetaLeap starting up..." |}])%list
              (fresh config w)))
    else
      set_log (fun l =>
                 l ++ [{| level := info;
                          message := "LutronCasetaLeap plugin finished early initialization" |}])%list
        (set_calls (fun l => l ++ [process_on "SIGUSR2"])%list
           (set_launchCallbacks S
              (set_calls (fun l => l ++ [api_on_didFinishLaunching])%list
                 (set_maxListeners (75 * size (secretsFromConfig config))
                    (set_calls (fun l => l ++ [process_on "warning"])%list
                       (set_log (fun l => l ++ [{| level := info;
                                                   message := "LutronCasetaLeap starting up..." |}])%list
                          (fresh config w))))))).
Proof.
  unfold constructor, constructor_body. unfold_M. cbn.
  destruct (size (secretsFromConfig config) =? 0)%nat; reflexivity.
Qed.

Lemma constructor_sound config (w : W) : sound host (constructor config w).
Proof.
  rewrite constructor_state.
  destruct (size (secretsFromConfig config) =? 0)%nat;
    (split; [intros k a; cbn; rewrite lookup_empty; discriminate |]);
    (split; [intros k b; cbn; rewrite lookup_empty; discriminate | constructor]).
Qed.

(** *** Listeners, passes and searches *)

Lemma steady_nil : steady [].
Proof. split; reflexivity. Qed.

Lemma steady_app cs1 cs2 : steady cs1 -> steady cs2 -> steady (cs1 ++ cs2).
Proof.
  intros [Hb1 Hs1] [Hb2 Hs2]. split.
  - intros b. rewrite !List.filter_app, !length_app, Hb1, Hb2. reflexivity.
  - rewrite List.filter_app, Hs1, Hs2. reflexivity.
Qed.

Lemma plain_steady cs : forallb plain_call cs = true -> steady cs.
Proof.
  induction cs as [| c cs IH]; [intros _; apply steady_nil |].
  cbn [forallb]. intros [Hc Hcs]%andb_prop. destruct (IH Hcs) as [Hb Hs].
  split; [intros b; specialize (Hb b) |]; destruct c; try discriminate; cbn; auto.
Qed.

Lemma device_calls_plain cs : forallb device_call cs = true -> forallb plain_call cs = true.
Proof.
  rewrite !forallb_forall. intros H c Hc. specialize (H c Hc). destruct c; auto.
Qed.

Lemma restore_calls_plain cs : forallb restore_call cs = true -> forallb plain_call cs = true.
Proof.
  rewrite !forallb_forall. intros H c Hc. specialize (H c Hc). destruct c; auto.
Qed.

Lemma pass_steady bridge cs :
  steady cs -> steady (bridge_getDeviceInfo bridge :: bridge_on_unsolicited bridge :: cs).
Proof.
  intros [Hb Hs]. split; [| exact Hs].
  intros b. specialize (Hb b). cbn.
  destruct (sb_bridgeID bridge =? sb_bridgeID b)%string; cbn; lia.
Qed.

Lemma processAllDevices_steady bridge s :
  exists cs, calls (snd (processAllDevices host bridge s)) = (calls s ++ cs)%list /\ steady cs.
Proof.
  destruct (processAllDevices_effects bridge s) as (_ & _ & _ & cs & Hcalls & Hdev & _).
  eexists. split; [exact Hcalls |].
  apply pass_steady, plain_steady, device_calls_plain, Hdev.
Qed.

Lemma configureAccessory_steady accessory s :
  exists cs,
    calls (snd (configureAccessory host accessory s)) = (calls s ++ cs)%list /\ steady cs.
Proof.
  destruct (configureAccessory_effects accessory s) as (_ & (cs & Hcalls & Hres) & _).
  exists cs. split; [exact Hcalls |]. apply plain_steady, restore_calls_plain, Hres.
Qed.

Lemma handleUnsolicitedMessage_steady bridgeID response s :
  exists cs,
    calls (snd (handleUnsolicitedMessage host bridgeID response s)) = (calls s ++ cs)%list /\
    steady cs.
Proof.
  destruct (handleUnsolicitedMessage_effects bridgeID response s)
    as (_ & _ & _ & _ & _ & _ & _ & _ & [Hc | Hc]); rewrite Hc.
  - exists []. rewrite app_nil_r. split; [reflexivity | apply steady_nil].
  - eexists. split; [reflexivity |]. apply plain_steady. reflexivity.
Qed.

Lemma handleBridgeDiscovery_steady bridgeInfo s :
  exists cs,
    calls (snd (handleBridgeDiscovery host bridgeInfo s)) = (calls s ++ cs)%list /\ steady cs.
Proof.
  rewrite handleBridgeDiscovery_eq.
  destruct (bridgeMgr s !! toLowerCase (net_bridgeid bridgeInfo)) as [b |].
  { exists []. cbn. rewrite app_nil_r. split; [reflexivity | apply steady_nil]. }
  destruct (secrets s !! toLowerCase (net_bridgeid bridgeInfo)) as [these |].
  - match goal with
    | |- context [processAllDevices host ?b ?st] =>
        destruct (processAllDevices_steady b st) as (cs & Hcalls & Hcs)
    end.
    eexists. rewrite Hcalls. cbn. rewrite <- app_assoc. split; [reflexivity |].
    apply (steady_app [_]); [apply plain_steady; reflexivity | exact Hcs].
  - exists []. cbn. rewrite app_nil_r. split; [reflexivity | apply steady_nil].
Qed.

Lemma listeners_run_steady m n s :
  (forall st, exists cs, calls (snd (m st)) = (calls st ++ cs)%list /\ steady cs) ->
  exists cs, calls (snd (listeners_run n m s)) = (calls s ++ cs)%list /\ steady cs.
Proof.
  intros Hm. revert s. induction n as [| n IH]; intros s.
  - exists []. cbn. rewrite app_nil_r. split; [reflexivity | apply steady_nil].
  - cbn [listeners_run]. unfold bind. destruct (Hm s) as (cs1 & Hcalls1 & Hcs1).
    destruct (m s) as [[[] | e] s1]; cbn [snd] in *.
    + destruct (IH s1) as (cs2 & Hcalls2 & Hcs2).
      exists (cs1 ++ cs2)%list. rewrite Hcalls2, Hcalls1, <- app_assoc.
      split; [reflexivity | apply steady_app; assumption].
    + exists cs1. split; assumption.
Qed.

Lemma launch_calls n s :
  calls (snd (listeners_run n didFinishLaunching s))
    = (calls s ++ repeat finder_beginSearching n)%list.
Proof.
  revert s. induction n as [| n IH]; intros s; [cbn; rewrite app_nil_r; reflexivity |].
  cbn [listeners_run]. unfold bind at 1.
  unfold didFinishLaunching at 1. unfold_M. cbn [fst snd]. cbv beta iota.
  fold (@didFinishLaunching W). rewrite IH. cbn. rewrite <- app_assoc. reflexivity.
Qed.

(** The calls of one event: those of a launch signal start the finder once
    per attached callback; those of any other event are steady. *)
Lemma step_calls s ev :
  exists cs,
    calls (step host s ev) = (calls s ++ cs)%list /\
    if is_launch ev then cs = repeat finder_beginSearching (launchCallbacks s)
    else steady cs.
Proof.
  unfold step. destruct ev as [| accessory | bridgeInfo | e | bridge response | i];
    cbn [deliver is_launch].
  - unfold bind at 1, gets at 1. cbv beta iota. eexists. split; [apply launch_calls |].
    reflexivity.
  - apply configureAccessory_steady.
  - unfold bind at 1, gets at 1. cbv beta iota. destruct (finder s).
    + apply listeners_run_steady. intros st. apply handleBridgeDiscovery_steady.
    + exists []. cbn. rewrite app_nil_r. split; [reflexivity | apply steady_nil].
  - unfold bind at 1, gets at 1. cbv beta iota. destruct (finder s).
    + apply listeners_run_steady. intros st. exists []. cbn. rewrite app_nil_r.
      split; [reflexivity | apply steady_nil].
    + exists []. cbn. rewrite app_nil_r. split; [reflexivity | apply steady_nil].
  - unfold bind at 1, gets at 1. cbv beta iota.
    apply listeners_run_steady. intros st. apply handleUnsolicitedMessage_steady.
  - unfold bind at 1, gets at 1. cbv beta iota. destruct (timers s !! i) as [t |].
    + unfold bind, modify.
      match goal with
      | |- context [processAllDevices host ?b ?st] =>
          destruct (processAllDevices_steady b st) as (cs & Hcalls & Hcs)
      end.
      exists cs. split; [exact Hcalls | exact Hcs].
    + exists []. cbn. rewrite app_nil_r. split; [reflexivity | apply steady_nil].
Qed.

Lemma repeat_search_filters n :
  (forall bridge, List.filter (listener_on bridge) (repeat finder_beginSearching n) = []) /\
  (forall bridge, List.filter (pass_on bridge) (repeat finder_beginSearching n) = []) /\
  length (List.filter is_search (repeat finder_beginSearching n)) = n.
Proof.
  induction n as [| n (Hl & Hp & Hs)]; [repeat split |].
  cbn. rewrite Hs. repeat split; auto.
Qed.

Lemma step_listeners s ev bridge :
  unsolicited_listeners bridge s = passes bridge s ->
  unsolicited_listeners bridge (step host s ev) = passes bridge (step host s ev).
Proof.
  unfold unsolicited_listeners, passes. fold (listener_on bridge). intros Hs.
  destruct (step_calls s ev) as (cs & -> & Hcs).
  rewrite !List.filter_app, !length_app, Hs. f_equal.
  destruct (is_launch ev).
  - subst cs. destruct (repeat_search_filters (launchCallbacks s)) as (Hl & Hp & _).
    rewrite Hl, Hp. reflexivity.
  - apply Hcs.
Qed.

Lemma step_searches s ev :
  searches (step host s ev)
    = searches s + (if is_launch ev then launchCallbacks s else 0).
Proof.
  unfold searches. destruct (step_calls s ev) as (cs & -> & Hcs).
  rewrite List.filter_app, length_app. f_equal.
  destruct (is_launch ev).
  - subst cs. apply repeat_search_filters.
  - destruct Hcs as [_ ->]. reflexivity.
Qed.

Lemma run_searches s evs :
  searches (run host s evs)
    = searches s + launchCallbacks s * length (List.filter is_launch evs).
Proof.
  revert s. induction evs as [| ev evs IH]; intros s; [cbn; lia |].
  cbn [run fold_left]. fold (run host (step host s ev) evs). rewrite IH, step_searches.
  destruct (step_evolves s ev) as (_ & _ & _ & -> & _).
  cbn [List.filter]. destruct (is_launch ev); cbn [length]; lia.
Qed.

Lemma prelaunch_no_listeners bridge s :
  forallb prelaunch_call (calls s) = true -> unsolicited_listeners bridge s = 0.
Proof.
  unfold unsolicited_listeners. induction (calls s) as [| c cs IH]; [reflexivity |].
  cbn [forallb List.filter]. intros [Hc Hcs]%andb_prop.
  destruct c; try discriminate; cbn; auto.
Qed.

Lemma restore_calls_prelaunch cs :
  forallb restore_call cs = true -> forallb prelaunch_call cs = true.
Proof.
  rewrite !forallb_forall. intros H c Hc. specialize (H c Hc). destruct c; auto.
Qed.

Lemma step_waiting s ev : is_launch ev = false -> waiting s -> waiting (step host s ev).
Proof.
  intros Hev Hs. pose proof Hs as (Hf & Hb & Ht & Hc). unfold step.
  destruct ev as [| accessory | bridgeInfo | e | bridge response | i];
    [discriminate | | | | |]; cbn [deliver].
  - destruct (configureAccessory_effects accessory s)
      as ((_ & _ & Hmgr & Hfinder & Htimers & _) & (cs & Hcalls & Hres) & _).
    unfold waiting. rewrite Hmgr, Hfinder, Htimers, Hcalls, forallb_app, Hc.
    rewrite (restore_calls_prelaunch _ Hres). repeat split; assumption.
  - unfold bind, gets. rewrite Hf. exact Hs.
  - unfold bind, gets. rewrite Hf. exact Hs.
  - unfold bind, gets. rewrite (prelaunch_no_listeners _ _ Hc). exact Hs.
  - unfold bind, gets. rewrite Ht. exact Hs.
Qed.

Lemma constructor_waiting config (w : W) : waiting (constructor config w).
Proof.
  rewrite constructor_state.
  destruct (size (secretsFromConfig config) =? 0)%nat; repeat split.
Qed.

Lemma run_waiting s evs :
  forallb (fun ev => negb (is_launch ev)) evs = true -> waiting s -> waiting (run host s evs).
Proof.
  revert s. induction evs as [| ev evs IH]; intros s Hevs Hs; [exact Hs |].
  cbn [forallb] in Hevs. apply andb_prop in Hevs as [Hev Hevs].
  cbn. apply IH; [exact Hevs |]. apply step_waiting; [| exact Hs].
  destruct (is_launch ev); [discriminate | reflexivity].
Qed.

Lemma prelaunch_calls_absent (cs : list Call) c :
  forallb prelaunch_call cs = true -> prelaunch_call c = false -> ~ In c cs.
Proof.
  intros Hall Hc Hin. rewrite forallb_forall in Hall. apply Hall in Hin. congruence.
Qed.

(** The options, the credential store and the listener limit are what the
    constructor made of the configuration, whatever happens afterwards. *)
Theorem configuration_is_fixed config (w : W) evs :
  options (run host (constructor config w) evs) = optionsFromConfig config /\
  secrets (run host (constructor config w) evs) = secretsFromConfig config /\
  maxListeners (run host (constructor config w) evs) =
    if (size (secretsFromConfig config) =? 0)%nat then None
    else Some (75 * size (secretsFromConfig config)).
Proof.
  destruct (run_evolves_aux (constructor config w) evs) as (-> & -> & -> & _).
  rewrite constructor_state.
  destruct (size (secretsFromConfig config) =? 0)%nat; repeat split.
Qed.

(** Nothing is forgotten: whatever the host, the finder, the bridges and
    the timers do, every identity of the index stays in the index, and every
    connection of the registry stays in the registry, unchanged. *)
Theorem nothing_is_forgotten s evs :
  dom (accessories s) ⊆ dom (accessories (run host s evs)) /\
  bridgeMgr s ⊆ bridgeMgr (run host s evs).
Proof.
  destruct (run_evolves_aux s evs) as (_ & _ & _ & _ & Hdom & Hmgr). split; assumption.
Qed.

(** Every entry of the index is kept under the identity of its accessory,
    in every state the platform reaches from its construction. *)
Theorem index_keyed_by_uuid config (w : W) evs k a :
  accessories (run host (constructor config w) evs) !! k = Some a -> UUID a = k.
Proof. apply (run_sound _ evs (constructor_sound config w)). Qed.

(** Every connection of the registry is kept under its own identity, which
    is lower-case and has stored credentials, and its client was made with
    the LEAP port and those credentials, in every state the platform reaches
    from its construction. *)
Theorem connections_carry_credentials config (w : W) evs k b :
  bridgeMgr (run host (constructor config w) evs) !! k = Some b ->
  sb_bridgeID b = k /\ toLowerCase k = k /\
  exists these,
    secretsFromConfig config !! k = Some these /\
    client_port (sb_client b) = LEAP_PORT host /\
    client_ca (sb_client b) = ca these /\
    client_key (sb_client b) = key these /\
    client_cert (sb_client b) = cert these.
Proof.
  intros Hlook.
  destruct (run_sound _ evs (constructor_sound config w)) as (_ & Hconn & _).
  destruct (Hconn k b Hlook) as (Hid & Hlower & these & Hsec & Hclient).
  destruct (run_evolves_aux (constructor config w) evs) as (_ & Hsecrets & _).
  rewrite Hsecrets in Hsec.
  assert (Hctor : secrets (constructor config w) = secretsFromConfig config).
  { rewrite constructor_state.
    destruct (size (secretsFromConfig config) =? 0)%nat; reflexivity. }
  rewrite Hctor in Hsec. repeat split; try assumption. exists these. split; assumption.
Qed.

(** Until the host says that it finished launching, the platform does not
    discover or reconcile: there is no finder, no connection and no timer,
    and no search was started, no bridge was asked for its inventory, no
    accessory was made and none was registered; restoring cached accessories
    is all that happens. *)
Theorem nothing_before_launch config (w : W) evs :
  forallb (fun ev => negb (is_launch ev)) evs = true ->
  finder (run host (constructor config w) evs) = None /\
  bridgeMgr (run host (constructor config w) evs) = ∅ /\
  timers (run host (constructor config w) evs) = [] /\
  ~ In finder_beginSearching (calls (run host (constructor config w) evs)) /\
  (forall b, ~ In (bridge_getDeviceInfo b) (calls (run host (constructor config w) evs))) /\
  (forall name uuid,
     ~ In (new_platformAccessory name uuid) (calls (run host (constructor config w) evs))) /\
  (forall plugin platform l,
     ~ In (registerPlatformAccessories plugin platform l)
       (calls (run host (constructor config w) evs))).
Proof.
  intros Hevs.
  destruct (run_waiting _ evs Hevs (constructor_waiting config w)) as (Hf & Hb & Ht & Hc).
  repeat split; try assumption; intros; apply (prelaunch_calls_absent _ _ Hc); reflexivity.
Qed.

(** In every state the platform reaches from its construction, a bridge has
    as many of the platform's listeners as passes were started on it: each
    pass, the first one and every refresh, attaches one more. *)
Theorem listeners_track_passes config (w : W) evs bridge :
  unsolicited_listeners bridge (run host (constructor config w) evs)
    = passes bridge (run host (constructor config w) evs).
Proof.
  assert (Hstart : unsolicited_listeners bridge (constructor config w)
                   = passes bridge (constructor config w)).
  { rewrite constructor_state.
    destruct (size (secretsFromConfig config) =? 0)%nat; reflexivity. }
  revert Hstart. generalize (constructor config w).
  induction evs as [| ev evs IH]; intros s Hs; [exact Hs |].
  cbn. apply IH, step_listeners, Hs.
Qed.

(** The finder is told to search once for each finished-launching signal of
    the host, and never when no credentials are configured. *)
Theorem discovery_starts_with_each_launch config (w : W) evs :
  searches (run host (constructor config w) evs) =
    if (size (secretsFromConfig config) =? 0)%nat then 0
    else length (List.filter is_launch evs).
Proof.
  rewrite run_searches, constructor_state.
  destruct (size (secretsFromConfig config) =? 0)%nat; cbn; lia.
Qed.

(** *** More on the credential store *)

Lemma stored_entry entry :
  {| ca := ca entry; key := key entry; cert := cert entry; bridgeid := bridgeid entry |}
  = entry.
Proof. destruct entry; reflexivity. Qed.

(** The store answers for an identity with the last configured credential
    whose identity, lower-cased, is that identity: earlier credentials of
    the same bridge are overwritten, and the key is always the lower-cased
    identity of the credential it holds. *)
Theorem secretsFromConfig_lookup_Some config id these :
  secretsFromConfig config !! id = Some these <->
  exists before after,
    config_secrets config = (before ++ these :: after)%list /\
    toLowerCase (bridgeid these) = id /\
    Forall (fun entry => toLowerCase (bridgeid entry) <> id) after.
Proof.
  destruct config as [options entries]. cbn [config_secrets]. split.
  - induction entries as [| entry entries IH] using rev_ind; [intros [=] |].
    rewrite secretsFromConfig_snoc, stored_entry, lookup_insert.
    case_decide as Hid.
    + intros [= ->]. exists entries, []. repeat split; [exact Hid | constructor].
    + intros Hlook. destruct (IH Hlook) as (before & after & -> & Hkey & Hafter).
      exists before, (after ++ [entry])%list. rewrite <- app_assoc. repeat split.
      * exact Hkey.
      * apply Forall_app. split; [exact Hafter | repeat constructor; exact Hid].
  - intros (before & after & -> & Hkey & Hafter).
    induction after as [| entry after IH] using rev_ind.
    + rewrite secretsFromConfig_snoc, stored_entry, Hkey. apply lookup_insert_eq.
    + apply Forall_app in Hafter as [Hafter Hentry]. inversion Hentry; subst.
      replace (before ++ these :: after ++ [entry])%list
        with ((before ++ these :: after) ++ [entry])%list
        by (rewrite <- app_assoc; reflexivity).
      rewrite secretsFromConfig_snoc, lookup_insert_ne by assumption. apply IH, Hafter.
Qed.

Lemma secretsFromConfig_is_Some config entry id :
  In entry (config_secrets config) ->
  toLowerCase id = toLowerCase (bridgeid entry) ->
  is_Some (secretsFromConfig config !! toLowerCase id).
Proof.
  destruct config as [options entries]. cbn [config_secrets]. intros Hin Hid.
  induction entries as [| e entries IH] using rev_ind; [destruct Hin |].
  rewrite secretsFromConfig_snoc, lookup_insert. case_decide as Hkey.
  - eexists; reflexivity.
  - apply IH. apply in_app_or in Hin as [Hin | [<- | []]]; [exact Hin | congruence].
Qed.

(** A discovered bridge is matched with its credentials whatever the case
    of the letters of its identity, in the configuration or as discovered:
    when some configured credential has the same identity up to case and
    the registry does not hold the bridge yet, [handleBridgeDiscovery]
    returns and the registry holds a connection under the lower-cased
    identity, made with the stored credentials of that identity. *)
Theorem discovery_matches_credentials_up_to_case config entry bridgeInfo s :
  secrets s = secretsFromConfig config ->
  In entry (config_secrets config) ->
  toLowerCase (net_bridgeid bridgeInfo) = toLowerCase (bridgeid entry) ->
  bridgeMgr s !! toLowerCase (net_bridgeid bridgeInfo) = None ->
  fst (handleBridgeDiscovery host bridgeInfo s) = Returned tt /\
  exists these,
    secretsFromConfig config !! toLowerCase (net_bridgeid bridgeInfo) = Some these /\
    bridgeMgr (snd (handleBridgeDiscovery host bridgeInfo s))
      !! toLowerCase (net_bridgeid bridgeInfo)
      = Some (connection host bridgeInfo these).
Proof.
  intros Hsecrets Hin Hid Hmgr.
  destruct (secretsFromConfig_is_Some config entry _ Hin Hid) as [these Hthese].
  rewrite handleBridgeDiscovery_eq, Hmgr, Hsecrets, Hthese.
  match goal with
  | |- context [processAllDevices host ?b ?st] =>
      destruct (processAllDevices_effects b st) as (Hret & (_ & _ & Hreg & _) & _)
  end.
  split; [exact Hret |]. exists these. split; [reflexivity |].
  rewrite Hreg. cbn. apply lookup_insert_eq.
Qed.

End Properties.


(** ** The platform on concrete inputs *)

(** C1 fails as stated: with [filterPico] on, a remote that is not in the
    index is given a handle, handed to the remote handler, registered and
    inserted, and no warning is logged. *)
Lemma filtered_remote_is_set_up :
  filterPico (options started_filtering) = true /\
  case_of pico_types (DeviceType living_room_pico) = true /\
  accessories started_filtering !! "uuid-12345" = None /\
  calls (snd (processDevice scripted aa11 living_room_pico started_filtering)) =
    (calls started_filtering ++
     [new_platformAccessory "Living Room Pico" "uuid-12345";
      bridgeMgr_getBridge "aa11";
      new_PicoRemote (handle_of scripted aa11 living_room_pico) "aa11"
        (options started_filtering);
      registerPlatformAccessories "homebridge-lutron-caseta-leap" "LutronCasetaLeap"
        [pico_accessory]])%list /\
  accessories (snd (processDevice scripted aa11 living_room_pico started_filtering))
    !! "uuid-12345" = Some pico_accessory /\
  forallb (fun e => match level e with warn => false | _ => true end)
    (log (snd (processDevice scripted aa11 living_room_pico started_filtering))) = true.
Proof. vm_compute. repeat split. Qed.

Lemma filtered_remote_witness :
  case_of pico_types (DeviceType living_room_pico) = true /\
  accessories started_filtering !! uuid_of scripted living_room_pico = None /\
  fst (processDevice scripted aa11 living_room_pico started_filtering) = Returned tt.
Proof.
  assert (Hpico : case_of pico_types (DeviceType living_room_pico) = true)
    by (vm_compute; reflexivity).
  assert (Hnone : accessories started_filtering !! uuid_of scripted living_room_pico = None)
    by (vm_compute; reflexivity).
  split; [exact Hpico |]. split; [exact Hnone |].
  exact (proj1 (processDevice_pico_ignores_filter scripted aa11 living_room_pico
                  started_filtering Hpico Hnone)).
Defined.



(** C3 fails as stated: a handle is made for a device of no recognized type
    that is not in the index. *)
Lemma unrecognized_device_gets_a_handle :
  case_of recognized_types (DeviceType mystery_device) = false /\
  calls (snd (processDevice scripted aa11 mystery_device started)) =
    (calls started ++ [new_platformAccessory "Attic Keypad" "uuid-9"])%list.
Proof. vm_compute. repeat split. Qed.

Lemma unrecognized_witness :
  case_of recognized_types (DeviceType mystery_device) = false /\
  fst (processDevice scripted aa11 mystery_device started) = Returned tt /\
  accessories (snd (processDevice scripted aa11 mystery_device started))
    = accessories started.
Proof.
  assert (Hun : case_of recognized_types (DeviceType mystery_device) = false)
    by (vm_compute; reflexivity).
  split; [exact Hun |].
  pose proof (processDevice_unrecognized scripted aa11 mystery_device [] started Hun)
    as (Hret & Hacc & _).
  split; assumption.
Defined.



(** The sensor's initialisation is rejected; the blind after it is eligible
    at its turn, and it is registered and in the index when the loop ends. *)
Lemma per_device_failure_isolation_witness :
  processDevice scripted aa11 hall_sensor
    (snd (processAllDevices_loop scripted aa11 [living_room_pico] started_stalling))
    = (Thrown "Error: timed out",
       snd (processDevice scripted aa11 hall_sensor
              (snd (processAllDevices_loop scripted aa11 [living_room_pico]
                      started_stalling)))) /\
  eligible scripted aa11 bedroom_blind
    (snd (processAllDevices_loop scripted aa11 [living_room_pico; hall_sensor]
            started_stalling))
    blind_accessory /\
  In (registerPlatformAccessories (PLUGIN_NAME scripted) (PLATFORM_NAME scripted)
        [blind_accessory])
     (calls (snd (processAllDevices_loop scripted aa11
                    ([living_room_pico] ++ hall_sensor :: [bedroom_blind])
                    started_stalling))) /\
  accessories (snd (processAllDevices_loop scripted aa11
                      ([living_room_pico] ++ hall_sensor :: [bedroom_blind])
                      started_stalling))
    !! uuid_of scripted bedroom_blind = Some blind_accessory.
Proof.
  assert (Hthrow : processDevice scripted aa11 hall_sensor
                     (snd (processAllDevices_loop scripted aa11 [living_room_pico]
                             started_stalling))
                   = (Thrown "Error: timed out",
                      snd (processDevice scripted aa11 hall_sensor
                             (snd (processAllDevices_loop scripted aa11 [living_room_pico]
                                     started_stalling)))))
    by (vm_compute; reflexivity).
  assert (Hel : eligible scripted aa11 bedroom_blind
                  (snd (processAllDevices_loop scripted aa11
                          [living_room_pico; hall_sensor] started_stalling))
                  blind_accessory)
    by (split; [vm_compute; reflexivity | vm_compute; split; reflexivity]).
  split; [exact Hthrow |]. split; [exact Hel |].
  exact (proj2 (proj1 (proj2 (proj2 (proj2 (proj2
           (per_device_failure_isolation scripted aa11 [living_room_pico] hall_sensor
              [bedroom_blind] started_stalling _ _ Hthrow)))))
           [living_room_pico; hall_sensor] bedroom_blind [] blind_accessory eq_refl Hel)).
Defined.

Lemma no_credentials_witness :
  bridgeMgr started !! toLowerCase (net_bridgeid bb22) = None /\
  secrets started !! toLowerCase (net_bridgeid bb22) = None /\
  handleBridgeDiscovery scripted bb22 started =
    (Thrown "Error: no credentials for bridge ID BB22", started).
Proof.
  assert (Hmgr : bridgeMgr started !! toLowerCase (net_bridgeid bb22) = None)
    by (vm_compute; reflexivity).
  assert (Hsec : secrets started !! toLowerCase (net_bridgeid bb22) = None)
    by (vm_compute; reflexivity).
  split; [exact Hmgr |]. split; [exact Hsec |].
  exact (handleBridgeDiscovery_no_credentials scripted bb22 started Hmgr Hsec).
Defined.

(** The registration throws: the remote stays out of the index. *)
Lemma registration_atomicity_witness :
  accessories started_flaky !! uuid_of scripted living_room_pico = None /\
  fst (processDevice_setup scripted aa11 living_room_pico (fullName_of living_room_pico)
         (uuid_of scripted living_room_pico) started_flaky)
    = Returned (Break pico_accessory) /\
  accessories (snd (processDevice scripted aa11 living_room_pico started_flaky))
    !! uuid_of scripted living_room_pico = None.
Proof.
  assert (Hnone : accessories started_flaky !! uuid_of scripted living_room_pico = None)
    by (vm_compute; reflexivity).
  assert (Hsetup : processDevice_setup scripted aa11 living_room_pico
                     (fullName_of living_room_pico) (uuid_of scripted living_room_pico)
                     started_flaky
                   = (Returned (Break pico_accessory),
                      snd (processDevice_setup scripted aa11 living_room_pico
                             (fullName_of living_room_pico)
                             (uuid_of scripted living_room_pico) started_flaky)))
    by (vm_compute; reflexivity).
  split; [exact Hnone |]. split; [rewrite Hsetup; reflexivity |].
  pose proof (proj1 (registration_atomicity scripted aa11 living_room_pico started_flaky)
                _ _ Hnone Hsetup) as (_ & _ & Hthrown).
  assert (Hreg : snd (register scripted
                        (world (snd (processDevice_setup scripted aa11 living_room_pico
                                       (fullName_of living_room_pico)
                                       (uuid_of scripted living_room_pico) started_flaky)))
                        [pico_accessory])
                 = Thrown "Error: Cannot add a bridged Accessory")
    by (vm_compute; reflexivity).
  rewrite Hreg in Hthrown. exact (proj1 (proj2 Hthrown)).
Defined.

Lemma no_discovery_witness :
  size (secretsFromConfig no_secrets) = 0 /\
  finder (run scripted (constructor no_secrets quiet)
            [DID_FINISH_LAUNCHING; discovered aa11_info; unsolicited aa11 deviceheard;
             timeout 0]) = None.
Proof.
  assert (Hempty : size (secretsFromConfig no_secrets) = 0) by (vm_compute; reflexivity).
  split; [exact Hempty |].
  exact (proj1 (proj2 (proj2 (proj2
           (no_credentials_no_discovery scripted no_secrets quiet
              [DID_FINISH_LAUNCHING; discovered aa11_info; unsolicited aa11 deviceheard;
               timeout 0] Hempty))))).
Defined.

(** *** The scenarios of the specification *)

(** Bridge AA11 with stored credentials reports one remote, filters off: one
    handle, the remote handler, one registration, one entry in the index. *)
Example discovery_of_aa11 :
  calls (run scripted
           (constructor (config_with None)
              {| registrations := []; initialisations := [];
                 inventory := [living_room_pico] |})
           [DID_FINISH_LAUNCHING; discovered aa11_info]) =
    [process_on "warning"; api_on_didFinishLaunching; process_on "SIGUSR2";
     finder_beginSearching; bridgeMgr_addBridge aa11; bridge_getDeviceInfo aa11;
     bridge_on_unsolicited aa11;
     new_platformAccessory "Living Room Pico" "uuid-12345"; bridgeMgr_getBridge "aa11";
     new_PicoRemote (handle_of scripted aa11 living_room_pico) "aa11"
       (optionsFromConfig (config_with None));
     registerPlatformAccessories "homebridge-lutron-caseta-leap" "LutronCasetaLeap"
       [pico_accessory]] /\
  accessories (run scripted
                 (constructor (config_with None)
                    {| registrations := []; initialisations := [];
                       inventory := [living_room_pico] |})
                 [DID_FINISH_LAUNCHING; discovered aa11_info])
    = {[ "uuid-12345" := pico_accessory ]}.
Proof. vm_compute. repeat split. Qed.

(** C4: the claim fails on the code once a refresh has run.  Each pass
    attaches one more listener to the bridge (the discovery pass the first,
    the refresh the second), so the first device-heard notification of a
    discovered bridge schedules exactly one re-reconciliation, as the claim
    says, but the next one, received after that refresh has run, reaches
    the router twice and schedules two re-reconciliations of the same
    bridge.  Neither notification is forwarded. *)
Theorem second_notification_schedules_two_refreshes :
  unsolicited_listeners aa11
    (run scripted started [DID_FINISH_LAUNCHING; discovered aa11_info]) = 1 /\
  timers (run scripted started
            [DID_FINISH_LAUNCHING; discovered aa11_info; unsolicited aa11 deviceheard])
    = [{| timer_ms := 30000; timer_bridge := aa11 |}] /\
  unsolicited_listeners aa11
    (run scripted started
       [DID_FINISH_LAUNCHING; discovered aa11_info; unsolicited aa11 deviceheard;
        timeout 0]) = 2 /\
  timers (run scripted started
            [DID_FINISH_LAUNCHING; discovered aa11_info; unsolicited aa11 deviceheard;
             timeout 0]) = [] /\
  timers (run scripted started
            [DID_FINISH_LAUNCHING; discovered aa11_info; unsolicited aa11 deviceheard;
             timeout 0; unsolicited aa11 deviceheard])
    = [{| timer_ms := 30000; timer_bridge := aa11 |};
       {| timer_ms := 30000; timer_bridge := aa11 |}] /\
  emitted (run scripted started
             [DID_FINISH_LAUNCHING; discovered aa11_info; unsolicited aa11 deviceheard;
              timeout 0; unsolicited aa11 deviceheard]) = [].
Proof. vm_compute. repeat split. Qed.

(** *** Further runs *)

Lemma skips_unmanaged_witness :
  case_of (native_types ++ pending_types) (DeviceType wall_dimmer) = true /\
  accessories started !! uuid_of scripted wall_dimmer = None /\
  fst (processDevice scripted aa11 wall_dimmer started) = Returned tt.
Proof.
  assert (Htype : case_of (native_types ++ pending_types) (DeviceType wall_dimmer) = true)
    by (vm_compute; reflexivity).
  assert (Hnone : accessories started !! uuid_of scripted wall_dimmer = None)
    by (vm_compute; reflexivity).
  split; [exact Htype |]. split; [exact Hnone |].
  rewrite (processDevice_skips_unmanaged scripted aa11 wall_dimmer started Htype Hnone).
  reflexivity.
Defined.

Lemma sensor_waits_witness :
  case_of sensor_types (DeviceType hall_sensor) = true /\
  accessories started_stalling !! uuid_of scripted hall_sensor = None /\
  fst (processDevice scripted aa11 hall_sensor started_stalling) = Thrown "Error: timed out".
Proof.
  assert (Htype : case_of sensor_types (DeviceType hall_sensor) = true)
    by (vm_compute; reflexivity).
  assert (Hnone : accessories started_stalling !! uuid_of scripted hall_sensor = None)
    by (vm_compute; reflexivity).
  split; [exact Htype |]. split; [exact Hnone |].
  pose proof (processDevice_sensor_waits scripted aa11 hall_sensor started_stalling
                Htype Hnone) as Hwaits.
  assert (Hinit : snd (initialize scripted (world started_stalling)
                         (with_services (handle_of scripted aa11 hall_sensor)
                            (OccupancySensor scripted (handle_of scripted aa11 hall_sensor))))
                  = Thrown "Error: timed out")
    by (vm_compute; reflexivity).
  rewrite Hinit in Hwaits. exact (proj1 Hwaits).
Defined.

Lemma inventory_failure_witness :
  snd (getDeviceInfo silent_bridges (world started) aa11) = Thrown "Error: request timed out" /\
  accessories (snd (processAllDevices silent_bridges aa11 started)) = accessories started.
Proof.
  assert (Hrejected : snd (getDeviceInfo silent_bridges (world started) aa11)
                      = Thrown "Error: request timed out")
    by (vm_compute; reflexivity).
  split; [exact Hrejected |].
  exact (proj1 (processAllDevices_inventory_failure silent_bridges aa11 started _ Hrejected)).
Defined.

Lemma connects_witness :
  bridgeMgr started !! toLowerCase (net_bridgeid aa11_info) = None /\
  secrets started !! toLowerCase (net_bridgeid aa11_info) = Some aa11_secret /\
  bridgeMgr (snd (handleBridgeDiscovery scripted aa11_info started)) =
    <[toLowerCase (net_bridgeid aa11_info) := connection scripted aa11_info aa11_secret]>
      (bridgeMgr started).
Proof.
  assert (Hmgr : bridgeMgr started !! toLowerCase (net_bridgeid aa11_info) = None)
    by (vm_compute; reflexivity).
  assert (Hsec : secrets started !! toLowerCase (net_bridgeid aa11_info) = Some aa11_secret)
    by (vm_compute; reflexivity).
  split; [exact Hmgr |]. split; [exact Hsec |].
  exact (proj1 (proj2 (handleBridgeDiscovery_connects scripted aa11_info aa11_secret started
                         Hmgr Hsec))).
Defined.

Lemma rediscovery_witness :
  secrets started !! toLowerCase (net_bridgeid aa11_info) = Some aa11_secret /\
  toLowerCase (net_bridgeid aa11_mixed_case) = toLowerCase (net_bridgeid aa11_info) /\
  fst (handleBridgeDiscovery scripted aa11_mixed_case
         (snd (handleBridgeDiscovery scripted aa11_info started))) = Returned tt.
Proof.
  assert (Hsec : secrets started !! toLowerCase (net_bridgeid aa11_info) = Some aa11_secret)
    by (vm_compute; reflexivity).
  assert (Hsame : toLowerCase (net_bridgeid aa11_mixed_case)
                  = toLowerCase (net_bridgeid aa11_info))
    by (vm_compute; reflexivity).
  split; [exact Hsec |]. split; [exact Hsame |].
  rewrite (rediscovery_ignored scripted aa11_info aa11_mixed_case aa11_secret started
             Hsec Hsame).
  reflexivity.
Defined.

Lemma index_keyed_witness :
  accessories (run scripted (constructor (config_with None) (reporting [living_room_pico]))
                 [DID_FINISH_LAUNCHING; discovered aa11_info])
    !! "uuid-12345" = Some pico_accessory /\
  UUID pico_accessory = "uuid-12345".
Proof.
  assert (Hlook : accessories
                    (run scripted
                       (constructor (config_with None) (reporting [living_room_pico]))
                       [DID_FINISH_LAUNCHING; discovered aa11_info])
                    !! "uuid-12345" = Some pico_accessory)
    by (vm_compute; reflexivity).
  split; [exact Hlook |].
  exact (index_keyed_by_uuid scripted (config_with None) (reporting [living_room_pico])
           [DID_FINISH_LAUNCHING; discovered aa11_info] _ _ Hlook).
Defined.

Lemma connections_witness :
  bridgeMgr (run scripted (constructor (config_with None) (reporting [living_room_pico]))
               [DID_FINISH_LAUNCHING; discovered aa11_mixed_case])
    !! "aa11" = Some aa11 /\
  sb_bridgeID aa11 = "aa11".
Proof.
  assert (Hlook : bridgeMgr
                    (run scripted
                       (constructor (config_with None) (reporting [living_room_pico]))
                       [DID_FINISH_LAUNCHING; discovered aa11_mixed_case])
                    !! "aa11" = Some aa11)
    by (vm_compute; reflexivity).
  split; [exact Hlook |].
  exact (proj1 (connections_carry_credentials scripted (config_with None)
                  (reporting [living_room_pico])
                  [DID_FINISH_LAUNCHING; discovered aa11_mixed_case] _ _ Hlook)).
Defined.

Lemma before_launch_witness :
  forallb (fun ev => negb (is_launch ev))
    [restored pico_accessory; discovered aa11_info; timeout 0] = true /\
  finder (run scripted (constructor (config_with None) (reporting [living_room_pico]))
            [restored pico_accessory; discovered aa11_info; timeout 0]) = None.
Proof.
  assert (Hevs : forallb (fun ev => negb (is_launch ev))
                   [restored pico_accessory; discovered aa11_info; timeout 0] = true)
    by (vm_compute; reflexivity).
  split; [exact Hevs |].
  exact (proj1 (nothing_before_launch scripted (config_with None)
                  (reporting [living_room_pico])
                  [restored pico_accessory; discovered aa11_info; timeout 0] Hevs)).
Defined.

Lemma every_listener_witness :
  is_deviceheard deviceheard = true /\
  bridgeMgr (run scripted started
               [DID_FINISH_LAUNCHING; discovered aa11_info;
                unsolicited aa11 deviceheard; timeout 0])
    !! sb_bridgeID aa11 = Some aa11 /\
  length (timers (step scripted
                    (run scripted started
                       [DID_FINISH_LAUNCHING; discovered aa11_info;
                        unsolicited aa11 deviceheard; timeout 0])
                    (unsolicited aa11 deviceheard))) = 2.
Proof.
  assert (Hshape : is_deviceheard deviceheard = true) by (vm_compute; reflexivity).
  assert (Hmgr : bridgeMgr (run scripted started
                              [DID_FINISH_LAUNCHING; discovered aa11_info;
                               unsolicited aa11 deviceheard; timeout 0])
                   !! sb_bridgeID aa11 = Some aa11)
    by (vm_compute; reflexivity).
  split; [exact Hshape |]. split; [exact Hmgr |].
  rewrite (notification_reaches_every_listener scripted aa11 aa11 deviceheard _ _
             Hshape eq_refl Hmgr).
  vm_compute. reflexivity.
Defined.

Lemma matches_up_to_case_witness :
  In aa11_secret (config_secrets (config_with None)) /\
  toLowerCase (net_bridgeid aa11_mixed_case) = toLowerCase (bridgeid aa11_secret) /\
  fst (handleBridgeDiscovery scripted aa11_mixed_case started) = Returned tt.
Proof.
  assert (Hin : In aa11_secret (config_secrets (config_with None))) by (left; reflexivity).
  assert (Hid : toLowerCase (net_bridgeid aa11_mixed_case)
                = toLowerCase (bridgeid aa11_secret))
    by (vm_compute; reflexivity).
  assert (Hsecrets : secrets started = secretsFromConfig (config_with None))
    by (vm_compute; reflexivity).
  assert (Hmgr : bridgeMgr started !! toLowerCase (net_bridgeid aa11_mixed_case) = None)
    by (vm_compute; reflexivity).
  split; [exact Hin |]. split; [exact Hid |].
  exact (proj1 (discovery_matches_credentials_up_to_case scripted (config_with None)
                  aa11_secret aa11_mixed_case started Hsecrets Hin Hid Hmgr)).
Defined.
